(** * ServiceNow change-management adapter: connector and adapter

    A shallow embedding of [connector.js] (class [ServiceNowConnector]) and
    [main.js] (class [ServiceNowAdapter]), and the properties of the response
    normalisation, the URI builder and the health check.

    Conventions of the embedding.
    - JavaScript values are the inductive [value]; objects are finite maps
      from property names to values, so that an own property holding
      [undefined] ([Some VUndefined]) differs from an absent one ([None]).
    - A computation is a function from the state (the connector's stored
      [options] and the list of events produced so far) to a completion
      (normal or abrupt) and a new state.  The events are the calls of the
      logger, of [emit] and of [request]; two more kinds only keep track of
      what was run: [Evaluated c] is noted when the check [c] of the response
      is evaluated, [Called d e] when the callback of the examples is entered.
    - The two collaborators that are not part of the repository, [JSON.parse]
      and the [request] function, are variables of the sections that use
      them: every statement holds for any parser and any HTTP client.
    - The continuation given to [request] is run in place: the events appear in
      the order in which the program produces them.  In the program the
      methods that lead to [request] ([sendRequest], [get], [post],
      [getRecord], [postRecord], [healthcheck], [connect]) have returned
      [undefined] when the reply is processed, in a later turn: an abrupt
      completion of such a method here stands for the uncaught exception of
      that later turn, not for an exception that its caller could catch. *)

From Stdlib Require Import ZArith Ascii String DecimalString.
From stdpp Require Import gmap strings list fin_maps.

Local Set Warnings "-register-all".
Local Open Scope string_scope.
Local Open Scope Z_scope.

(** ** Values *)

(** Numbers are integers: the only number the connector inspects is the HTTP
    status code.  Arrays carry their elements and, as every JavaScript object,
    named own properties ([JSON.parse] builds arrays without any). *)
Inductive value :=
| VUndefined
| VNull
| VBool (b : bool)
| VNum (n : Z)
| VStr (s : string)
| VArr (elems : list value) (props : gmap string value)
| VObj (props : gmap string value).

(** [ToBoolean]: the test made by [if (v)]. *)
Definition truthy (v : value) : bool :=
  match v with
  | VUndefined | VNull => false
  | VBool b => b
  | VNum n => negb (n =? 0)
  | VStr s => negb (String.eqb s "")
  | VArr _ _ | VObj _ => true
  end.

Definition is_object (v : value) : bool :=
  match v with
  | VArr _ _ | VObj _ => true
  | _ => false
  end.

(** The own property [k] of [v], if [v] is an object that has it. *)
Definition own (v : value) (k : string) : option value :=
  match v with
  | VObj m | VArr _ m => m !! k
  | _ => None
  end.

(** ** Completions *)

Inductive exn := SyntaxError | TypeError.

Inductive completion (A : Type) :=
| Normal (a : A)
| Throw (e : exn).
Arguments Normal {A} a.
Arguments Throw {A} e.

#[global] Instance completion_ret : MRet completion := @Normal.
#[global] Instance completion_bind : MBind completion := fun A B k c =>
  match c with
  | Normal a => k a
  | Throw e => Throw e
  end.

(** ** Property access, for names that are neither an array index nor
    [length] nor defined on a built-in prototype (here: [result], [number],
    [sys_id], [change_ticket_number], [change_ticket_key] and the deleted
    names). *)

(** [v.k] *)
Definition get_prop (v : value) (k : string) : completion value :=
  match v with
  | VUndefined | VNull => Throw TypeError
  | VObj m | VArr _ m => Normal (default VUndefined (m !! k))
  | VBool _ | VNum _ | VStr _ => Normal VUndefined
  end.

(** [v.k = x] in strict code (a class body is strict code): assigning to a
    property of a primitive value is a [TypeError]. *)
Definition set_prop (v : value) (k : string) (x : value) : completion value :=
  match v with
  | VObj m => Normal (VObj (<[k := x]> m))
  | VArr l m => Normal (VArr l (<[k := x]> m))
  | _ => Throw TypeError
  end.

(** [delete v.k] *)
Definition delete_prop (v : value) (k : string) : completion value :=
  match v with
  | VUndefined | VNull => Throw TypeError
  | VObj m => Normal (VObj (delete k m))
  | VArr l m => Normal (VArr l (delete k m))
  | VBool _ | VNum _ | VStr _ => Normal v
  end.

(** ** Strings *)

(** [s.includes(needle)] *)
Fixpoint includes (s needle : string) : bool :=
  String.prefix needle s ||
  match s with
  | EmptyString => false
  | String _ s' => includes s' needle
  end.

(** [String(n)] for an integer [n] of absolute value at most 2^53: these are
    the integers that a JavaScript number holds one by one, and it prints
    their digits in full.  Beyond, [String(n)] rounds the digits or writes an
    exponent ([String(2e21)] is [2e+21]) and this function is not its model:
    the statements about status codes stay within the bound. *)
Definition Number_toString (n : Z) : string :=
  NilZero.string_of_int (Z.to_int n).

Definition is_digit (c : ascii) : bool :=
  (48 <=? nat_of_ascii c)%nat && (nat_of_ascii c <=? 57)%nat.

(** [/(2\d\d)/] matched at the head of [s]. *)
Definition validResponseRegex_here (s : string) : bool :=
  match s with
  | String c0 (String c1 (String c2 _)) =>
      Ascii.eqb c0 "2" && is_digit c1 && is_digit c2
  | _ => false
  end.

(** [validResponseRegex.test(s)]: the pattern is not anchored, so it is tried
    at every position. *)
Fixpoint validResponseRegex_test (s : string) : bool :=
  validResponseRegex_here s ||
  match s with
  | EmptyString => false
  | String _ s' => validResponseRegex_test s'
  end.

(** ** Data of the connector *)

(** [options] of the connector. *)
Record Options := {
  url : string;
  username : string;
  password : string;
  serviceNowTable : string
}.

(** [callOptions]: a copy of [options] with [method], and [query] when set. *)
Record CallOptions := {
  call_options : Options;
  query : option string;
  method : string
}.

(** [requestOptions] *)
Record RequestOptions := {
  req_method : string;
  auth_user : string;
  auth_pass : string;
  baseUrl : string;
  uri : string
}.

(** The response object given by [request]: the two properties that the
    connector reads. *)
Record Response := {
  statusCode : Z;
  body : string
}.

(** The response as a value; [None] is [undefined]. *)
Definition Response_value (response : option Response) : value :=
  match response with
  | None => VUndefined
  | Some r =>
      VObj (<["statusCode" := VNum (statusCode r)]> (<["body" := VStr (body r)]> ∅))
  end.

(** What [request] passes to its continuation. *)
Record Reply := {
  reply_error : value;
  reply_response : option Response;
  reply_body : value
}.

(** ** Events and state *)

Inductive level := Debug | Info | Warn | Error.

Inductive check := IsHibernating | StatusCodeTest.

Inductive event :=
| Log (l : level) (msg : string)          (* log.debug / info / warn / error *)
| Emit (status : string) (payload : value) (* this.emit(status, payload) *)
| Request (o : RequestOptions)             (* request(requestOptions, ...) *)
| Evaluated (c : check)                    (* a check of the response was run *)
| Called (data error : value).             (* the host's callback was entered *)

Record State := {
  this_options : Options;   (* this.options of the connector *)
  events : list event
}.

Definition record (es : list event) (s : State) : State :=
  {| this_options := this_options s; events := events s ++ es |}.

Definition M (A : Type) : Type := State -> completion A * State.

Definition ret {A} (a : A) : M A := fun s => (Normal a, s).

Definition throw {A} (e : exn) : M A := fun s => (Throw e, s).

Definition bind {A B} (m : M A) (k : A -> M B) : M B :=
  fun s =>
    match m s with
    | (Normal a, s') => k a s'
    | (Throw e, s') => (Throw e, s')
    end.

Definition lift {A} (c : completion A) : M A := fun s => (c, s).

Definition emit (e : event) : M unit := fun s => (Normal tt, record [e] s).

Definition read_options : M Options := fun s => (Normal (this_options s), s).

#[global] Instance M_ret : MRet M := @ret.
#[global] Instance M_bind : MBind M := fun A B k m => bind m k.

(** ** The connector: class [ServiceNowConnector] *)

(** The names deleted from every record, in the order of the [delete]
    statements (two names occur twice). *)
Definition removed_fields : list string :=
  ["number"; "sys_id"; "parent"; "reason"; "watch_list"; "upon_reject";
   "sys_updated_on"; "type"; "approval_history"; "test_plan"; "cab_delegate";
   "requested_by_date"; "state"; "sys_created_by"; "knowledge"; "order";
   "phase"; "cmdb_ci"; "delivery_plan"; "contract"; "impact";
   "work_notes_list"; "sys_domain_path"; "cab_recommendation";
   "production_system"; "review_date"; "business_duration"; "group_list";
   "requested_by"; "change_plan"; "approval_set"; "implementation_plan";
   "approval_history"; "test_plan"; "correlation_display"; "delivery_task";
   "additional_assignee_list"; "outside_maintenance_schedule"; "end_date";
   "short_description"; "std_change_producer_version"; "service_offering";
   "sys_class_name"; "closed_by"; "follow_up"; "reassignment_count";
   "review_status"; "assigned_to"; "start_date"; "sla_due";
   "comments_and_work_notes"; "escalation"; "upon_approval";
   "correlation_id"; "made_sla"; "backout_plan"; "conflict_status";
   "sys_updated_by"; "opened_by"; "user_input"; "sys_created_on";
   "on_hold_task"; "sys_domain"; "closed_at"; "review_comments";
   "business_service"; "time_worked"; "expected_start"; "opened_at";
   "phase_state"; "cab_date"; "work_notes"; "close_code"; "assignment_group";
   "on_hold_reason"; "calendar_duration"; "close_notes"; "contact_type";
   "cab_required"; "urgency"; "scope"; "company"; "justification";
   "activity_due"; "comments"; "approval"; "due_date"; "sys_mod_count";
   "on_hold"; "sys_tags"; "conflict_last_run"; "unauthorized"; "location";
   "risk"; "category"; "risk_impact_analysis"].

Fixpoint delete_all (ks : list string) (v : value) : completion value :=
  match ks with
  | [] => Normal v
  | k :: ks' => v' ← delete_prop v k; delete_all ks' v'
  end.

(** The arrow function given to [results.forEach]; it updates [result] in
    place, here it returns the updated record. *)
Definition project (result : value) : completion value :=
  number ← get_prop result "number";
  result ← set_prop result "change_ticket_number" number;
  sys_id ← get_prop result "sys_id";
  result ← set_prop result "change_ticket_key" sys_id;
  delete_all removed_fields result.

Fixpoint each (f : value -> completion value) (l : list value) : completion (list value) :=
  match l with
  | [] => Normal []
  | x :: l' => y ← f x; l'' ← each f l'; Normal (y :: l'')
  end.

(** [results.forEach(f)], for an [f] that updates its argument in place: the
    array after the call.  A value without a callable [forEach] (anything but
    an array, or an array whose own property [forEach] hides the method) is a
    [TypeError]. *)
Definition forEach (results : value) (f : value -> completion value) : completion value :=
  match results with
  | VArr elems props =>
      match props !! "forEach" with
      | None => elems' ← each f elems; Normal (VArr elems' props)
      | Some _ => Throw TypeError
      end
  | _ => Throw TypeError
  end.

(** A method applied to [response]; reading a property of [undefined] is a
    [TypeError]. *)
Definition on_response {A} (f : Response -> A) (response : option Response) : completion A :=
  match response with
  | Some r => Normal (f r)
  | None => Throw TypeError
  end.

Module ServiceNowConnector.

(** [constructor(options)] *)
Definition new (options : Options) : M unit :=
  fun s => (Normal tt, {| this_options := options; events := events s |}).

(** [constructUri(query = null)]; [None] is an omitted (or null) query. *)
Definition constructUri (query : option string) : M string :=
  options ← read_options;
  let uri := "/api/now/table/" +:+ serviceNowTable options in
  let uri :=
    match query with
    | Some q => if truthy (VStr q) then (uri +:+ "?") +:+ q else uri
    | None => uri
    end in
  emit (Log Debug ("URI: " +:+ uri));;
  mret uri.

(** [isHibernating(response)] *)
Definition isHibernating (response : Response) : bool :=
  includes (body response) "Instance Hibernating page"
  && includes (body response) "<html>"
  && (statusCode response =? 200).

Section Methods.

Variable JSON_parse : string -> completion value.
Variable request : RequestOptions -> Reply.

(** [processRequestResults(error, response, body, callback)] *)
Definition processRequestResults (error : value) (response : option Response)
    (body_ : value) (callback : value -> value -> M value) : M value :=
  '(callbackData, callbackError) ←
    (if truthy error then
       emit (Log Error "Error present.");;
       mret (VNull, error)
     else
       emit (Evaluated IsHibernating);;
       hibernating ← lift (on_response isHibernating response);
       if hibernating : bool then
         emit (Log Error "Hibernating instance");;
         mret (VNull, VStr "Hibernating instance")
       else
         emit (Evaluated StatusCodeTest);;
         valid ← lift (on_response
                   (fun r => validResponseRegex_test (Number_toString (statusCode r)))
                   response);
         if negb valid then
           emit (Log Error "Bad response code.");;
           mret (VNull, Response_value response)
         else
           text ← lift (on_response body response);
           if truthy (VStr text) then
             jsonBody ← lift (JSON_parse text);
             results ← lift (get_prop jsonBody "result");
             results ← lift (forEach results project);
             mret (results, VNull)
           else
             mret (VNull, VNull));
  callback callbackData callbackError.

(** [sendRequest(callOptions, callback)] *)
Definition sendRequest (callOptions : CallOptions)
    (callback : value -> value -> M value) : M value :=
  uri ←
    match query callOptions with
    | Some q => if truthy (VStr q) then constructUri (Some q) else constructUri None
    | None => constructUri None
    end;
  options ← read_options;
  let requestOptions :=
    {| req_method := method callOptions;
       auth_user := username options;
       auth_pass := password options;
       baseUrl := url options;
       uri := uri |} in
  emit (Request requestOptions);;
  let reply := request requestOptions in
  processRequestResults (reply_error reply) (reply_response reply) (reply_body reply)
    (fun processedResults processedError => callback processedResults processedError);;
  mret VUndefined.

(** [post(callback)] *)
Definition post (callback : value -> value -> M value) : M value :=
  options ← read_options;
  let getCallOptions := {| call_options := options; query := None; method := "POST" |} in
  sendRequest getCallOptions (fun results error => callback results error);;
  mret VUndefined.

(** [get(callback)] *)
Definition get (callback : value -> value -> M value) : M value :=
  options ← read_options;
  let getCallOptions := {| call_options := options; query := None; method := "GET" |} in
  sendRequest getCallOptions (fun results error => callback results error);;
  mret VUndefined.

End Methods.

End ServiceNowConnector.

(** ** The adapter: class [ServiceNowAdapter] *)

Module ServiceNowAdapter.

(** [adapterProperties] *)
Record AdapterProperties := {
  props_url : string;
  auth_username : string;
  auth_password : string;
  props_serviceNowTable : string
}.

(** The adapter object; its [connector] is the connector of the state. *)
Record Adapter := {
  id : string;
  props : AdapterProperties
}.

Definition nl : string := String "010"%char EmptyString.

(** [constructor(id, adapterProperties)] *)
Definition new (id : string) (adapterProperties : AdapterProperties) : M Adapter :=
  let this := {| id := id; props := adapterProperties |} in
  ServiceNowConnector.new
    {| url := props_url (props this);
       username := auth_username (props this);
       password := auth_password (props this);
       serviceNowTable := props_serviceNowTable (props this) |};;
  mret this.

(** [emitStatus(status)] *)
Definition emitStatus (this : Adapter) (status : string) : M unit :=
  emit (Emit status (VObj {[ "id" := VStr (id this) ]})).

(** [emitOffline()] *)
Definition emitOffline (this : Adapter) : M unit :=
  emitStatus this "OFFLINE";;
  emit (Log Warn "ServiceNow: Instance is unavailable.").

(** [emitOnline()] *)
Definition emitOnline (this : Adapter) : M unit :=
  emitStatus this "ONLINE";;
  emit (Log Info "ServiceNow: Instance is available.").

(** [if (callback) { callback(result, error); }] *)
Definition call_if_given (callback : option (value -> value -> M value))
    (result error : value) : M unit :=
  match callback with
  | Some f => f result error;; mret tt
  | None => mret tt
  end.

(** The arrow function that [healthcheck] gives to [getRecord]. *)
Definition healthcheck_continuation (this : Adapter)
    (callback : option (value -> value -> M value)) (result error : value) : M value :=
  (if truthy error then
     emit (Log Error (nl +:+ "Error with external system with ID:" +:+ nl +:+ id this));;
     emitOffline this;;
     call_if_given callback result error
   else
     emit (Log Debug (nl +:+ "External system is available and healthy!"));;
     emitOnline this;;
     call_if_given callback result error);;
  mret VUndefined.

Section Methods.

Variable JSON_parse : string -> completion value.
Variable request : RequestOptions -> Reply.

(** [getRecord(callback)] *)
Definition getRecord (this : Adapter) (callback : value -> value -> M value) : M value :=
  ServiceNowConnector.get JSON_parse request callback;;
  mret VUndefined.

(** [postRecord(callback)] *)
Definition postRecord (this : Adapter) (callback : value -> value -> M value) : M value :=
  ServiceNowConnector.post JSON_parse request callback;;
  mret VUndefined.

(** [healthcheck(callback)]; [None] is an omitted callback. *)
Definition healthcheck (this : Adapter)
    (callback : option (value -> value -> M value)) : M value :=
  getRecord this (healthcheck_continuation this callback);;
  mret VUndefined.

(** [connect()] *)
Definition connect (this : Adapter) : M value :=
  healthcheck this None;;
  mret VUndefined.

End Methods.

End ServiceNowAdapter.

(** * Vocabulary of the statements *)

(** [needle] occurs in [s], in the words of the specification. *)
Definition contains (s needle : string) : Prop :=
  ∃ before after, s = before +:+ needle +:+ after.

(** The status codes 200 to 299. *)
Definition in_2xx (n : Z) : bool := (200 <=? n) && (n <=? 299).

(** The pattern accepts exactly the codes from 200 to 299 among the first
    [bound] naturals. *)
Definition agrees_below (bound : nat) : bool :=
  forallb (fun i => Bool.eqb (validResponseRegex_test (Number_toString (Z.of_nat i)))
                             (in_2xx (Z.of_nat i)))
          (seq 0 bound).

(** The removal set: the names that a normalized record never has, in
    alphabetical order. *)
Definition removal_set : list string :=
  ["activity_due"; "additional_assignee_list"; "approval";
   "approval_history"; "approval_set"; "assigned_to"; "assignment_group";
   "backout_plan"; "business_duration"; "business_service"; "cab_date";
   "cab_delegate"; "cab_recommendation"; "cab_required"; "calendar_duration";
   "category"; "change_plan"; "close_code"; "close_notes"; "closed_at";
   "closed_by"; "cmdb_ci"; "comments"; "comments_and_work_notes"; "company";
   "conflict_last_run"; "conflict_status"; "contact_type"; "contract";
   "correlation_display"; "correlation_id"; "delivery_plan"; "delivery_task";
   "due_date"; "end_date"; "escalation"; "expected_start"; "follow_up";
   "group_list"; "impact"; "implementation_plan"; "justification";
   "knowledge"; "location"; "made_sla"; "number"; "on_hold";
   "on_hold_reason"; "on_hold_task"; "opened_at"; "opened_by"; "order";
   "outside_maintenance_schedule"; "parent"; "phase"; "phase_state";
   "production_system"; "reason"; "reassignment_count"; "requested_by";
   "requested_by_date"; "review_comments"; "review_date"; "review_status";
   "risk"; "risk_impact_analysis"; "scope"; "service_offering";
   "short_description"; "sla_due"; "start_date"; "state";
   "std_change_producer_version"; "sys_class_name"; "sys_created_by";
   "sys_created_on"; "sys_domain"; "sys_domain_path"; "sys_id";
   "sys_mod_count"; "sys_tags"; "sys_updated_by"; "sys_updated_on";
   "test_plan"; "time_worked"; "type"; "unauthorized"; "upon_approval";
   "upon_reject"; "urgency"; "user_input"; "watch_list"; "work_notes";
   "work_notes_list"].

(** The integers that a JavaScript number holds one by one. *)
Definition safe_integer (n : Z) : Prop := Z.abs n ≤ 9007199254740992.

(** [v.k] for an object [v]. *)
Definition field (v : value) (k : string) : value :=
  default VUndefined (own v k).

(** [output] is [input] with [number] and [sys_id] renamed and the removal
    set dropped, in the words of the specification. *)
Definition renamed_and_stripped (input output : value) : Prop :=
  own output "change_ticket_number" = Some (field input "number") ∧
  own output "change_ticket_key" = Some (field input "sys_id") ∧
  (∀ k, k ∈ removed_fields → own output k = None) ∧
  (∀ k, k ∉ removed_fields → k ≠ "change_ticket_number" → k ≠ "change_ticket_key" →
        own output k = own input k).

(** [m] without the keys [ks]. *)
Definition drop (ks : list string) (m : gmap string value) : gmap string value :=
  foldl (fun m k => delete k m) m ks.

(** The properties of a record after the renaming and the deletions. *)
Definition projected (m : gmap string value) : gmap string value :=
  drop removed_fields
    (<["change_ticket_key" := default VUndefined (m !! "sys_id")]>
       (<["change_ticket_number" := default VUndefined (m !! "number")]> m)).

(** The transport error argument has the type of its documentation
    ([@param {error} error]): it is [null] or an (error) object. *)
Definition error_argument (error : value) : Prop :=
  error = VNull ∨ is_object error = true.

(** The state after both checks of the response were made. *)
Definition checked (s : State) : State :=
  record [Evaluated IsHibernating; Evaluated StatusCodeTest] s.

(** Both renamed keys are own properties of [output], holding [undefined]
    when [input] lacks the source key. *)
Definition has_renamed_keys (input output : value) : Prop :=
  is_Some (own output "change_ticket_number") ∧
  is_Some (own output "change_ticket_key") ∧
  (own input "number" = None → own output "change_ticket_number" = Some VUndefined) ∧
  (own input "sys_id" = None → own output "change_ticket_key" = Some VUndefined).

(** The table path, with [?] and the query after it when there is a
    non-empty query. *)
Definition table_uri (table : string) (query : option string) : string :=
  match query with
  | Some (String c q) => "/api/now/table/" +:+ table +:+ "?" +:+ String c q
  | Some EmptyString | None => "/api/now/table/" +:+ table
  end.

(** The options of the request made by [healthcheck]. *)
Definition healthcheck_request (s : State) : RequestOptions :=
  {| req_method := "GET";
     auth_user := username (this_options s);
     auth_pass := password (this_options s);
     baseUrl := url (this_options s);
     uri := "/api/now/table/" +:+ serviceNowTable (this_options s) |}.

(** The state in which the reply is processed. *)
Definition requested (s : State) : State :=
  record [Log Debug ("URI: /api/now/table/" +:+ serviceNowTable (this_options s));
          Request (healthcheck_request s)] s.

(** What the adapter does on an error, and without one, before the callback. *)
Definition status_events (this : ServiceNowAdapter.Adapter) (error : value) : list event :=
  if truthy error then
    [Log Error (ServiceNowAdapter.nl +:+ "Error with external system with ID:"
                +:+ ServiceNowAdapter.nl +:+ ServiceNowAdapter.id this);
     Emit "OFFLINE" (VObj {[ "id" := VStr (ServiceNowAdapter.id this) ]});
     Log Warn "ServiceNow: Instance is unavailable."]
  else
    [Log Debug (ServiceNowAdapter.nl +:+ "External system is available and healthy!");
     Emit "ONLINE" (VObj {[ "id" := VStr (ServiceNowAdapter.id this) ]});
     Log Info "ServiceNow: Instance is available."].

(** The status events among [es], in order. *)
Definition emitted (es : list event) : list (string * value) :=
  omap (fun e => match e with Emit status payload => Some (status, payload) | _ => None end) es.

(** The pattern accepts [-i] exactly when [i] is from 200 to 299, for the
    first [bound] naturals [i]. *)
Definition agrees_between (bound : nat) : bool :=
  forallb (fun i => Bool.eqb (validResponseRegex_test (Number_toString (- Z.of_nat i)))
                             (in_2xx (Z.of_nat i)))
          (seq 0 bound).

(** The requests among [es], in order. *)
Definition requests (es : list event) : list RequestOptions :=
  omap (fun e => match e with Request o => Some o | _ => None end) es.

(** The request that [get] and [post] make: the bare path of the table, the
    stored credentials, and the method [m]. *)
Definition table_request (m : string) (s : State) : RequestOptions :=
  {| req_method := m;
     auth_user := username (this_options s);
     auth_pass := password (this_options s);
     baseUrl := url (this_options s);
     uri := "/api/now/table/" +:+ serviceNowTable (this_options s) |}.

(** [s] has a [2] followed by two decimal digits somewhere. *)
Definition has_2dd (s : string) : Prop :=
  ∃ before d1 d2 after,
    s = before +:+ String "2" (String d1 (String d2 after)) ∧
    is_digit d1 = true ∧ is_digit d2 = true.

(** The own keys of an object. *)
Definition keys (v : value) : gset string :=
  match v with
  | VObj m | VArr _ m => dom m
  | _ => ∅
  end.

(** The event is a log entry or the note of a check: neither a request nor a
    status event nor a call of the host. *)
Definition internal (e : event) : Prop :=
  match e with
  | Log _ _ | Evaluated _ => True
  | Emit _ _ | Request _ | Called _ _ => False
  end.

(** What [healthcheck] logs and emits on an error, before the callback. *)
Definition offline_events (this : ServiceNowAdapter.Adapter) : list event :=
  [Log Error (ServiceNowAdapter.nl +:+ "Error with external system with ID:"
              +:+ ServiceNowAdapter.nl +:+ ServiceNowAdapter.id this);
   Emit "OFFLINE" (VObj {[ "id" := VStr (ServiceNowAdapter.id this) ]});
   Log Warn "ServiceNow: Instance is unavailable."].

(** What [healthcheck] logs and emits without an error, before the callback. *)
Definition online_events (this : ServiceNowAdapter.Adapter) : list event :=
  [Log Debug (ServiceNowAdapter.nl +:+ "External system is available and healthy!");
   Emit "ONLINE" (VObj {[ "id" := VStr (ServiceNowAdapter.id this) ]});
   Log Info "ServiceNow: Instance is available."].

(** ** A host callback and a reader of JSON texts, for the examples

    [host_callback] only notes the arguments it is given.

    [JSON_parse_text] is a reader for a part of JSON: the texts whose numbers
    are integers that a JavaScript number holds exactly and whose strings have
    no [\u] escape.  On these it builds the value that [JSON.parse] builds;
    every other text it rejects, as [JSON.parse] rejects the texts that are
    not JSON. *)

Definition host_callback : value -> value -> M value :=
  fun data error => emit (Called data error);; mret VUndefined.

Definition dquote : ascii := "034"%char.
Definition backslash : ascii := "092"%char.

(** A JSON string literal between double quotes. *)
Definition quoted (s : string) : string :=
  String dquote s +:+ String dquote EmptyString.

Definition is_ws (c : ascii) : bool :=
  Ascii.eqb c " " || Ascii.eqb c "009" || Ascii.eqb c "010" || Ascii.eqb c "013".

Fixpoint skip_ws (s : string) : string :=
  match s with
  | String c s' => if is_ws c then skip_ws s' else s
  | EmptyString => EmptyString
  end.

Definition unescape (c : ascii) : option ascii :=
  if Ascii.eqb c dquote then Some dquote
  else if Ascii.eqb c backslash then Some backslash
  else if Ascii.eqb c "/" then Some "/"%char
  else if Ascii.eqb c "b" then Some "008"%char
  else if Ascii.eqb c "f" then Some "012"%char
  else if Ascii.eqb c "n" then Some "010"%char
  else if Ascii.eqb c "r" then Some "013"%char
  else if Ascii.eqb c "t" then Some "009"%char
  else None.

(** The characters of a string literal, after its opening quote. *)
Fixpoint read_chars (s : string) : option (string * string) :=
  match s with
  | EmptyString => None
  | String c s' =>
      if Ascii.eqb c dquote then Some (EmptyString, s')
      else if Ascii.eqb c backslash then
        match s' with
        | String e s'' =>
            match unescape e, read_chars s'' with
            | Some c', Some (str, rest) => Some (String c' str, rest)
            | _, _ => None
            end
        | EmptyString => None
        end
      else if (nat_of_ascii c <? 32)%nat then None
      else
        match read_chars s' with
        | Some (str, rest) => Some (String c str, rest)
        | None => None
        end
  end.

Definition digit_value (c : ascii) : Z := Z.of_nat (nat_of_ascii c) - 48.

Fixpoint read_digits (s : string) (acc : Z) : Z * string :=
  match s with
  | String c s' => if is_digit c then read_digits s' (10 * acc + digit_value c) else (acc, s)
  | EmptyString => (acc, s)
  end.

(** After an integer nothing of a fraction or an exponent may follow. *)
Definition integer_ends (s : string) : bool :=
  match s with
  | String c _ => negb (Ascii.eqb c "." || Ascii.eqb c "e" || Ascii.eqb c "E")
  | EmptyString => true
  end.

(** [0], or a digit from 1 to 9 followed by digits. *)
Definition read_natural (s : string) : option (Z * string) :=
  match s with
  | String c s' =>
      if Ascii.eqb c "0" then
        match s' with
        | String d _ => if is_digit d then None else Some (0, s')
        | EmptyString => Some (0, s')
        end
      else if is_digit c then Some (read_digits s' (digit_value c))
      else None
  | EmptyString => None
  end.

Definition read_number (s : string) : option (value * string) :=
  let '(negative, s1) :=
    match s with
    | String c s' => if Ascii.eqb c "-" then (true, s') else (false, s)
    | EmptyString => (false, s)
    end in
  match read_natural s1 with
  | Some (n, rest) =>
      if integer_ends rest && (n <=? 9007199254740991)
      then Some (VNum (if negative then - n else n), rest)
      else None
  | None => None
  end.

(** [s] with the literal [lit] taken off its head. *)
Fixpoint strip (lit s : string) : option string :=
  match lit, s with
  | EmptyString, _ => Some s
  | String a lit', String b s' => if Ascii.eqb a b then strip lit' s' else None
  | String _ _, EmptyString => None
  end.

Fixpoint read_value (fuel : nat) (s : string) : option (value * string) :=
  match fuel with
  | O => None
  | S fuel' =>
      match skip_ws s with
      | EmptyString => None
      | String c s' =>
          if Ascii.eqb c "n" then rest ← strip "ull" s'; Some (VNull, rest)
          else if Ascii.eqb c "t" then rest ← strip "rue" s'; Some (VBool true, rest)
          else if Ascii.eqb c "f" then rest ← strip "alse" s'; Some (VBool false, rest)
          else if Ascii.eqb c dquote then
            '(str, rest) ← read_chars s'; Some (VStr str, rest)
          else if Ascii.eqb c "[" then
            match skip_ws s' with
            | String d rest =>
                if Ascii.eqb d "]" then Some (VArr [] ∅, rest)
                else read_elements fuel' s' []
            | EmptyString => None
            end
          else if Ascii.eqb c "{" then
            match skip_ws s' with
            | String d rest =>
                if Ascii.eqb d "}" then Some (VObj ∅, rest)
                else read_members fuel' s' ∅
            | EmptyString => None
            end
          else read_number (String c s')
      end
  end
with read_elements (fuel : nat) (s : string) (acc : list value) : option (value * string) :=
  match fuel with
  | O => None
  | S fuel' =>
      match read_value fuel' s with
      | Some (v, rest) =>
          match skip_ws rest with
          | String c rest' =>
              if Ascii.eqb c "," then read_elements fuel' rest' (acc ++ [v])
              else if Ascii.eqb c "]" then Some (VArr (acc ++ [v]) ∅, rest')
              else None
          | EmptyString => None
          end
      | None => None
      end
  end
with read_members (fuel : nat) (s : string) (acc : gmap string value) : option (value * string) :=
  match fuel with
  | O => None
  | S fuel' =>
      match skip_ws s with
      | String q s1 =>
          if Ascii.eqb q dquote then
            match read_chars s1 with
            | Some (key, s2) =>
                match skip_ws s2 with
                | String colon s3 =>
                    if Ascii.eqb colon ":" then
                      match read_value fuel' s3 with
                      | Some (v, rest) =>
                          match skip_ws rest with
                          | String c rest' =>
                              if Ascii.eqb c "," then read_members fuel' rest' (<[key := v]> acc)
                              else if Ascii.eqb c "}" then Some (VObj (<[key := v]> acc), rest')
                              else None
                          | EmptyString => None
                          end
                      | None => None
                      end
                    else None
                | EmptyString => None
                end
            | None => None
            end
          else None
      | EmptyString => None
      end
  end.

Definition JSON_parse_text (text : string) : completion value :=
  match read_value (2 * String.length text + 2) text with
  | Some (v, rest) =>
      match skip_ws rest with
      | EmptyString => Normal v
      | String _ _ => Throw SyntaxError
      end
  | None => Throw SyntaxError
  end.

(** ** The inputs of the examples *)

(** The state before the adapter is constructed. *)
Definition blank : State :=
  {| this_options := {| url := ""; username := ""; password := ""; serviceNowTable := "" |};
     events := [] |}.

(** The state after the adapter [adapter0] is constructed. *)
Definition s0 : State :=
  {| this_options :=
       {| url := "https://dev00000.service-now.com";
          username := "admin";
          password := "secret";
          serviceNowTable := "change_request" |};
     events := [] |}.

Definition adapter0 : ServiceNowAdapter.Adapter :=
  {| ServiceNowAdapter.id := "servicenow-1";
     ServiceNowAdapter.props :=
       {| ServiceNowAdapter.props_url := "https://dev00000.service-now.com";
          ServiceNowAdapter.auth_username := "admin";
          ServiceNowAdapter.auth_password := "secret";
          ServiceNowAdapter.props_serviceNowTable := "change_request" |} |}.

(** The body [{"result":[{"number":"CHG001","sys_id":"abc","risk":"high"}]}]. *)
Definition ticket_body : string :=
  "{" +:+ quoted "result" +:+ ":[{"
  +:+ quoted "number" +:+ ":" +:+ quoted "CHG001" +:+ ","
  +:+ quoted "sys_id" +:+ ":" +:+ quoted "abc" +:+ ","
  +:+ quoted "risk" +:+ ":" +:+ quoted "high" +:+ "}]}".

Definition ticket : value :=
  VObj {[ "number" := VStr "CHG001"; "sys_id" := VStr "abc"; "risk" := VStr "high" ]}.

Definition ticket_projected : value :=
  VObj {[ "change_ticket_number" := VStr "CHG001"; "change_ticket_key" := VStr "abc" ]}.

(** The body [{"result":[{"risk":"high"}]}]: a record without [number] and
    [sys_id]. *)
Definition anonymous_body : string :=
  "{" +:+ quoted "result" +:+ ":[{" +:+ quoted "risk" +:+ ":" +:+ quoted "high" +:+ "}]}".

Definition anonymous : value := VObj {[ "risk" := VStr "high" ]}.

Definition ok_response : Response := {| statusCode := 200; body := ticket_body |}.

Definition hibernating_response : Response :=
  {| statusCode := 200;
     body := "<html><head><title>Instance Hibernating page</title></head></html>" |}.

Definition connection_refused : value :=
  VObj {[ "code" := VStr "ECONNREFUSED"; "syscall" := VStr "connect" ]}.

(** A [request] that answers with the response [r]. *)
Definition answer (r : Response) : RequestOptions -> Reply :=
  fun _ => {| reply_error := VNull; reply_response := Some r; reply_body := VStr (body r) |}.

(** A [request] that fails to connect. *)
Definition refuse : RequestOptions -> Reply :=
  fun _ => {| reply_error := connection_refused;
              reply_response := None;
              reply_body := VUndefined |}.

(** A record with [number], [sys_id], [state], [risk], [category],
    [work_notes] and, outside the removal set, [priority]. *)
Definition busy_body : string :=
  "{" +:+ quoted "result" +:+ ":[{"
  +:+ quoted "number" +:+ ":" +:+ quoted "CHG003" +:+ ","
  +:+ quoted "sys_id" +:+ ":" +:+ quoted "ghi" +:+ ","
  +:+ quoted "state" +:+ ":" +:+ quoted "-5" +:+ ","
  +:+ quoted "risk" +:+ ":" +:+ quoted "3" +:+ ","
  +:+ quoted "category" +:+ ":" +:+ quoted "Other" +:+ ","
  +:+ quoted "work_notes" +:+ ":" +:+ quoted "" +:+ ","
  +:+ quoted "priority" +:+ ":" +:+ quoted "4" +:+ "}]}".

Definition busy : value :=
  VObj {[ "number" := VStr "CHG003"; "sys_id" := VStr "ghi"; "state" := VStr "-5";
          "risk" := VStr "3"; "category" := VStr "Other"; "work_notes" := VStr "";
          "priority" := VStr "4" ]}.

Definition busy_projected : value :=
  VObj {[ "change_ticket_number" := VStr "CHG003"; "change_ticket_key" := VStr "ghi";
          "priority" := VStr "4" ]}.

(** A hibernating page served with the status 503. *)
Definition maintenance_response : Response :=
  {| statusCode := 503; body := body hibernating_response |}.

(** The body [{"result":{"number":"CHG002","sys_id":"def"}}]: one record, as
    the table API answers a [POST]. *)
Definition created_body : string :=
  "{" +:+ quoted "result" +:+ ":{"
  +:+ quoted "number" +:+ ":" +:+ quoted "CHG002" +:+ ","
  +:+ quoted "sys_id" +:+ ":" +:+ quoted "def" +:+ "}}".

Definition created : gmap string value :=
  {[ "number" := VStr "CHG002"; "sys_id" := VStr "def" ]}.

(** * Properties *)

(** Unfolds the monad and evaluates, keeping the large constants folded. *)
Ltac run :=
  unfold mbind, mret, M_bind, M_ret, bind, ret, lift, emit, throw, read_options;
  cbn -[removed_fields project record Number_toString validResponseRegex_test
        ServiceNowConnector.isHibernating].

(** ** Strings *)

Lemma append_String (c : ascii) (s t : string) :
  String c s +:+ t = String c (s +:+ t).
Proof. reflexivity. Qed.

Lemma prefix_app (p s : string) :
  String.prefix p s = true ↔ ∃ after, s = p +:+ after.
Proof.
  revert s. induction p as [|a p IH]; intros s.
  - split; [intros _; by exists s | by destruct s].
  - setoid_rewrite append_String. destruct s as [|b s]; simpl.
    + split; [done | intros [after H]; discriminate].
    + destruct (Ascii.ascii_dec a b) as [->|Hne].
      * rewrite IH. split; intros [after H]; exists after; congruence.
      * split; [done | intros [after H]; congruence].
Qed.

Lemma includes_contains (s needle : string) :
  includes s needle = true ↔ contains s needle.
Proof.
  unfold contains. induction s as [|c s IH].
  - change (includes "" needle) with (String.prefix needle "" || false).
    rewrite orb_false_r, prefix_app. split.
    + intros [after H]. by exists EmptyString, after.
    + intros [before [after H]]. destruct before; [by exists after | discriminate].
  - change (includes (String c s) needle)
      with (String.prefix needle (String c s) || includes s needle).
    rewrite orb_true_iff, prefix_app, IH. split.
    + intros [[after H] | [before [after H]]].
      * by exists EmptyString, after.
      * exists (String c before), after. rewrite append_String. by rewrite H.
    + intros [before [after H]]. destruct before as [|b before].
      * left. by exists after.
      * right. exists before, after. rewrite append_String in H. congruence.
Qed.

(** ** The status code test *)

(** On the status codes of at most three digits the pattern accepts exactly
    200 to 299. *)
Lemma validResponseRegex_three_digits (n : Z) :
  0 ≤ n ≤ 999 → validResponseRegex_test (Number_toString n) = in_2xx n.
Proof.
  intros Hn.
  assert (Hall : agrees_below 1000 = true) by (vm_compute; reflexivity).
  unfold agrees_below in Hall. rewrite forallb_forall in Hall.
  specialize (Hall (Z.to_nat n)).
  rewrite Z2Nat.id in Hall by lia.
  apply Bool.eqb_prop, Hall, in_seq. lia.
Qed.

Lemma validResponseRegex_2xx (n : Z) :
  200 ≤ n ≤ 299 → validResponseRegex_test (Number_toString n) = true.
Proof.
  intros Hn. rewrite validResponseRegex_three_digits by lia.
  unfold in_2xx. apply andb_true_iff. split; apply Z.leb_le; lia.
Qed.

(** ** The projection of a record *)

Lemma lookup_drop (ks : list string) (m : gmap string value) (k : string) :
  drop ks m !! k = if decide (k ∈ ks) then None else m !! k.
Proof.
  unfold drop. revert m. induction ks as [|k' ks IH]; intros m; simpl.
  - destruct (decide (k ∈ [])) as [H|H]; [inversion H | done].
  - rewrite IH.
    destruct (decide (k ∈ ks)) as [H1|H1]; destruct (decide (k ∈ k' :: ks)) as [H2|H2];
      try done.
    + exfalso. apply H2. by constructor.
    + destruct (decide (k = k')) as [->|Hne]; [apply lookup_delete_eq |].
      inversion H2; by subst.
    + apply lookup_delete_ne. intros ->. apply H2. constructor.
Qed.

Lemma delete_all_VObj (ks : list string) (m : gmap string value) :
  delete_all ks (VObj m) = Normal (VObj (drop ks m)).
Proof. revert m. induction ks as [|k ks IH]; intros m; [done | apply IH]. Qed.

Lemma delete_all_VArr (ks : list string) (l : list value) (m : gmap string value) :
  delete_all ks (VArr l m) = Normal (VArr l (drop ks m)).
Proof. revert m. induction ks as [|k ks IH]; intros m; [done | apply IH]. Qed.

Lemma renamed_not_removed :
  ("change_ticket_number" ∉ removed_fields) ∧ ("change_ticket_key" ∉ removed_fields).
Proof. split; apply (bool_decide_unpack _); vm_compute; exact I. Qed.

(** The [delete] statements delete exactly the removal set. *)
Lemma removal_set_removed (k : string) : k ∈ removal_set ↔ k ∈ removed_fields.
Proof.
  assert (H1 : forallb (fun k => bool_decide (k ∈ removed_fields)) removal_set = true)
    by (vm_compute; reflexivity).
  assert (H2 : forallb (fun k => bool_decide (k ∈ removal_set)) removed_fields = true)
    by (vm_compute; reflexivity).
  rewrite forallb_forall in H1, H2. split; intros H.
  - apply list_elem_of_In, H1 in H. by apply bool_decide_eq_true in H.
  - apply list_elem_of_In, H2 in H. by apply bool_decide_eq_true in H.
Qed.

Lemma projected_spec (m : gmap string value) :
  projected m !! "change_ticket_number" = Some (default VUndefined (m !! "number")) ∧
  projected m !! "change_ticket_key" = Some (default VUndefined (m !! "sys_id")) ∧
  (∀ k, k ∈ removed_fields → projected m !! k = None) ∧
  (∀ k, k ∉ removed_fields → k ≠ "change_ticket_number" → k ≠ "change_ticket_key" →
        projected m !! k = m !! k).
Proof.
  destruct renamed_not_removed as [Hn Hk]. unfold projected.
  repeat split.
  - rewrite lookup_drop, decide_False by done.
    rewrite lookup_insert_ne by done. by rewrite lookup_insert_eq.
  - rewrite lookup_drop, decide_False by done. by rewrite lookup_insert_eq.
  - intros k Hin. by rewrite lookup_drop, decide_True.
  - intros k Hout H1 H2. rewrite lookup_drop, decide_False by done.
    by rewrite !lookup_insert_ne.
Qed.

Lemma project_VObj (m : gmap string value) :
  project (VObj m) = Normal (VObj (projected m)).
Proof.
  unfold project. cbn -[delete_all removed_fields].
  rewrite lookup_insert_ne by done. apply delete_all_VObj.
Qed.

Lemma project_VArr (l : list value) (m : gmap string value) :
  project (VArr l m) = Normal (VArr l (projected m)).
Proof.
  unfold project. cbn -[delete_all removed_fields].
  rewrite lookup_insert_ne by done. apply delete_all_VArr.
Qed.

Lemma project_object (x : value) :
  is_object x = true → ∃ o, project x = Normal o ∧ renamed_and_stripped x o.
Proof.
  destruct x as [| | | | |l m|m]; try discriminate; intros _.
  - exists (VArr l (projected m)). split; [apply project_VArr | apply projected_spec].
  - exists (VObj (projected m)). split; [apply project_VObj | apply projected_spec].
Qed.

Lemma project_primitive (x : value) :
  is_object x = false → project x = Throw TypeError.
Proof. destruct x; try discriminate; reflexivity. Qed.

Lemma each_project_objects (rs : list value) :
  Forall (fun x => is_object x = true) rs →
  ∃ outs, each project rs = Normal outs ∧ Forall2 renamed_and_stripped rs outs.
Proof.
  induction 1 as [|x rs Hx _ (outs & Houts & Hall)].
  - exists []. by split.
  - destruct (project_object x Hx) as (o & Ho & Hspec).
    exists (o :: outs). split; [| by constructor].
    simpl. rewrite Ho. simpl. by rewrite Houts.
Qed.

Lemma each_project_primitive (rs : list value) :
  ¬ Forall (fun x => is_object x = true) rs → each project rs = Throw TypeError.
Proof.
  induction rs as [|x rs IH]; intros Hnot.
  - destruct Hnot. constructor.
  - simpl. destruct (is_object x) eqn:Hx.
    + destruct (project_object x Hx) as (o & -> & _). simpl.
      rewrite IH; [done |]. intros Hrs. apply Hnot. by constructor.
    + by rewrite project_primitive.
Qed.

(** ** Running the computations *)

Lemma record_record (es1 es2 : list event) (s : State) :
  record es2 (record es1 s) = record (es1 ++ es2) s.
Proof. unfold record. simpl. by rewrite app_assoc. Qed.

Lemma truthy_VStr (s : string) : truthy (VStr s) = true ↔ s ≠ "".
Proof.
  simpl. destruct (String.eqb_spec s ""); simpl; split; congruence.
Qed.

Lemma truthy_object (v : value) : is_object v = true → truthy v = true.
Proof. by destruct v. Qed.

Section Properties.

Variable JSON_parse : string -> completion value.

Abbreviation processRequestResults :=
  (ServiceNowConnector.processRequestResults JSON_parse).
Abbreviation isHibernating := ServiceNowConnector.isHibernating.

(** With an error, the continuation is entered at once. *)
Lemma processRequestResults_error error response body_ callback s :
  truthy error = true →
  processRequestResults error response body_ callback s
  = callback VNull error (record [Log Error "Error present."] s).
Proof.
  intros H. unfold ServiceNowConnector.processRequestResults. run.
  rewrite H. by run.
Qed.

(** Without an error, both checks are made on a response that passes them,
    and then the body is read. *)
Lemma processRequestResults_valid error r body_ callback s :
  truthy error = false →
  isHibernating r = false →
  validResponseRegex_test (Number_toString (statusCode r)) = true →
  processRequestResults error (Some r) body_ callback s
  = (if truthy (VStr (body r)) then
       results ← lift (jsonBody ← JSON_parse (body r);
                       results ← get_prop jsonBody "result";
                       forEach results project);
       callback results VNull
     else callback VNull VNull)
      (record [Evaluated IsHibernating; Evaluated StatusCodeTest] s).
Proof.
  intros He Hh Hv. unfold ServiceNowConnector.processRequestResults. run.
  rewrite He. run. rewrite Hh. run. rewrite Hv. run. rewrite record_record. simpl.
  destruct (String.eqb (body r) ""); run; [done |].
  destruct (JSON_parse (body r)) as [j|e]; run; [| done].
  destruct (get_prop j "result") as [rs|e]; run; [| done].
  by destruct (forEach rs project).
Qed.

Lemma processRequestResults_undefined error body_ callback s :
  truthy error = false →
  processRequestResults error None body_ callback s
  = (Throw TypeError, record [Evaluated IsHibernating] s).
Proof.
  intros He. unfold ServiceNowConnector.processRequestResults. run.
  rewrite He. by run.
Qed.

Lemma processRequestResults_hibernating error r body_ callback s :
  truthy error = false →
  isHibernating r = true →
  processRequestResults error (Some r) body_ callback s
  = callback VNull (VStr "Hibernating instance")
      (record [Evaluated IsHibernating; Log Error "Hibernating instance"] s).
Proof.
  intros He Hh. unfold ServiceNowConnector.processRequestResults. run.
  rewrite He. run. rewrite Hh. run. by rewrite record_record.
Qed.

Lemma processRequestResults_invalid error r body_ callback s :
  truthy error = false →
  isHibernating r = false →
  validResponseRegex_test (Number_toString (statusCode r)) = false →
  processRequestResults error (Some r) body_ callback s
  = callback VNull (Response_value (Some r))
      (record [Evaluated IsHibernating; Evaluated StatusCodeTest;
               Log Error "Bad response code."] s).
Proof.
  intros He Hh Hv. unfold ServiceNowConnector.processRequestResults. run.
  rewrite He. run. rewrite Hh. run. rewrite Hv. run. by rewrite !record_record.
Qed.

(** A body that parses to a value with an array of objects under [result]. *)
Lemma processRequestResults_objects error r body_ s j rs :
  truthy error = false →
  isHibernating r = false →
  validResponseRegex_test (Number_toString (statusCode r)) = true →
  body r ≠ "" →
  JSON_parse (body r) = Normal j →
  get_prop j "result" = Normal (VArr rs ∅) →
  Forall (fun x => is_object x = true) rs →
  ∃ outs, Forall2 renamed_and_stripped rs outs ∧
    ∀ callback,
      processRequestResults error (Some r) body_ callback s
      = callback (VArr outs ∅) VNull
          (record [Evaluated IsHibernating; Evaluated StatusCodeTest] s).
Proof.
  intros He Hh Hv Hb Hj Hrs Hobj.
  destruct (each_project_objects rs Hobj) as (outs & Houts & Hall).
  exists outs. split; [done |]. intros callback.
  rewrite processRequestResults_valid by done.
  apply truthy_VStr in Hb. rewrite Hb, Hj. run. rewrite Hrs. run.
  rewrite Houts. by run.
Qed.

(** A body that parses, but not to an array of objects under [result]. *)
Lemma processRequestResults_primitive error r body_ s j rs :
  truthy error = false →
  isHibernating r = false →
  validResponseRegex_test (Number_toString (statusCode r)) = true →
  body r ≠ "" →
  JSON_parse (body r) = Normal j →
  get_prop j "result" = Normal (VArr rs ∅) →
  ¬ Forall (fun x => is_object x = true) rs →
  ∀ callback,
    processRequestResults error (Some r) body_ callback s
    = (Throw TypeError, record [Evaluated IsHibernating; Evaluated StatusCodeTest] s).
Proof.
  intros He Hh Hv Hb Hj Hrs Hobj callback.
  rewrite processRequestResults_valid by done.
  apply truthy_VStr in Hb. rewrite Hb, Hj. run. rewrite Hrs. run.
  rewrite each_project_primitive by done. by run.
Qed.

Lemma processRequestResults_empty error r body_ callback s :
  truthy error = false →
  isHibernating r = false →
  validResponseRegex_test (Number_toString (statusCode r)) = true →
  body r = "" →
  processRequestResults error (Some r) body_ callback s
  = callback VNull VNull (record [Evaluated IsHibernating; Evaluated StatusCodeTest] s).
Proof.
  intros He Hh Hv Hb. rewrite processRequestResults_valid by done. by rewrite Hb.
Qed.

Lemma processRequestResults_no_parse error r body_ callback s e :
  truthy error = false →
  isHibernating r = false →
  validResponseRegex_test (Number_toString (statusCode r)) = true →
  body r ≠ "" →
  JSON_parse (body r) = Throw e →
  processRequestResults error (Some r) body_ callback s
  = (Throw e, record [Evaluated IsHibernating; Evaluated StatusCodeTest] s).
Proof.
  intros He Hh Hv Hb Hj. rewrite processRequestResults_valid by done.
  apply truthy_VStr in Hb. rewrite Hb, Hj. by run.
Qed.

Lemma forEach_not_array (v : value) (f : value -> completion value) :
  (∀ rs ps, v ≠ VArr rs ps) → forEach v f = Throw TypeError.
Proof. intros H. destruct v; try done. by destruct (H elems props). Qed.

Lemma processRequestResults_no_array error r body_ callback s j :
  truthy error = false →
  isHibernating r = false →
  validResponseRegex_test (Number_toString (statusCode r)) = true →
  body r ≠ "" →
  JSON_parse (body r) = Normal j →
  (∀ rs ps, get_prop j "result" ≠ Normal (VArr rs ps)) →
  processRequestResults error (Some r) body_ callback s
  = (Throw TypeError, record [Evaluated IsHibernating; Evaluated StatusCodeTest] s).
Proof.
  intros He Hh Hv Hb Hj Hrs. rewrite processRequestResults_valid by done.
  apply truthy_VStr in Hb. rewrite Hb, Hj. run.
  destruct (get_prop j "result") as [v|e] eqn:Hv'; run.
  - rewrite forEach_not_array; [by run |]. intros rs ps ->. by apply (Hrs rs ps).
  - assert (e = TypeError) as -> by (destruct j; simpl in Hv'; congruence). done.
Qed.

(** What is given to the continuation, when it is entered: the error is
    [null] or a truthy value. *)
Lemma processRequestResults_reports error response body_ s :
  (∃ e s', ∀ callback,
      processRequestResults error response body_ callback s = (Throw e, s')) ∨
  (∃ data err s',
      (∀ callback,
         processRequestResults error response body_ callback s = callback data err s') ∧
      (err = VNull ∨ truthy err = true)).
Proof.
  destruct (truthy error) eqn:He.
  { right. exists VNull, error. eexists. split; [| by right].
    intros callback. by apply processRequestResults_error. }
  destruct response as [r|].
  2:{ left. do 2 eexists. intros callback. by apply processRequestResults_undefined. }
  destruct (isHibernating r) eqn:Hh.
  { right. exists VNull, (VStr "Hibernating instance"). eexists. split; [| by right].
    intros callback. by apply processRequestResults_hibernating. }
  destruct (validResponseRegex_test (Number_toString (statusCode r))) eqn:Hv.
  2:{ right. exists VNull, (Response_value (Some r)). eexists. split; [| by right].
      intros callback. by apply processRequestResults_invalid. }
  destruct (truthy (VStr (body r))) eqn:Hb.
  2:{ right. exists VNull, VNull. eexists. split; [| by left].
      intros callback. rewrite processRequestResults_valid by done. by rewrite Hb. }
  destruct (jsonBody ← JSON_parse (body r);
            results ← get_prop jsonBody "result";
            forEach results project) as [results|e] eqn:Hrun.
  - right. exists results, VNull. eexists. split; [| by left].
    intros callback. rewrite processRequestResults_valid by done.
    rewrite Hb. run. unfold mbind in Hrun. rewrite Hrun. reflexivity.
  - left. do 2 eexists. intros callback. rewrite processRequestResults_valid by done.
    rewrite Hb. run. unfold mbind in Hrun. rewrite Hrun. reflexivity.
Qed.

(** ** The response normalisation *)

(** C1. For a successful GET response (no transport error, not hibernating,
    status 200 to 299, non-empty body whose JSON has a [result] array) the
    list given to the callback has, element by element, [change_ticket_number]
    equal to the input's [number], [change_ticket_key] equal to the input's
    [sys_id], and no field of the removal set: not [number], not [sys_id],
    not [state], [risk], [category], [work_notes], nor any other of its 94
    names.  The callback is entered exactly when every element of [result] is
    an object; otherwise a [TypeError] leaves the function. *)
Theorem successful_get_is_normalized error r body_ s j rs :
  truthy error = false →
  isHibernating r = false →
  200 ≤ statusCode r ≤ 299 →
  body r ≠ "" →
  JSON_parse (body r) = Normal j →
  get_prop j "result" = Normal (VArr rs ∅) →
  (Forall (fun x => is_object x = true) rs →
   ∃ outs,
     Forall2 (fun input output =>
                own output "change_ticket_number" = Some (field input "number") ∧
                own output "change_ticket_key" = Some (field input "sys_id") ∧
                (∀ k, k ∈ removal_set → own output k = None) ∧
                own output "number" = None ∧ own output "sys_id" = None ∧
                own output "state" = None ∧ own output "risk" = None ∧
                own output "category" = None ∧ own output "work_notes" = None)
             rs outs ∧
     ∀ callback,
       processRequestResults error (Some r) body_ callback s
       = callback (VArr outs ∅) VNull (checked s)) ∧
  (¬ Forall (fun x => is_object x = true) rs →
   ∀ callback,
     processRequestResults error (Some r) body_ callback s
     = (Throw TypeError, checked s)).
Proof.
  intros He Hh Hs Hb Hj Hrs.
  pose proof (validResponseRegex_2xx _ Hs) as Hv. split.
  - intros Hobj.
    destruct (processRequestResults_objects error r body_ s j rs) as (outs & Hall & Hrun);
      try done.
    exists outs. split; [| done].
    eapply Forall2_impl; [exact Hall |]. intros x o (H1 & H2 & H3 & _).
    assert (Hgone : ∀ k, k ∈ removal_set → own o k = None)
      by (intros k Hk; by apply H3, removal_set_removed).
    repeat (split; [done |]).
    repeat split; apply Hgone, (bool_decide_unpack _); vm_compute; exact I.
  - intros Hobj. by apply processRequestResults_primitive with j rs.
Qed.

(** C2. With a non-null transport error (an error object, the other value of
    the argument's documented type) the callback receives [(null, error)] and
    neither check of the response is evaluated, whatever the response (also
    [undefined]) and the body are: the only event is the log entry. *)
Theorem transport_error_skips_checks error response body_ callback s :
  error_argument error →
  error ≠ VNull →
  processRequestResults error response body_ callback s
  = callback VNull error (record [Log Error "Error present."] s).
Proof.
  intros [->|Hobj] Hnull; [done |].
  by apply processRequestResults_error, truthy_object.
Qed.

(** C3. [isHibernating] holds exactly when the body contains both markers and
    the status code is 200; and then, without a transport error, the callback
    receives [(null, "Hibernating instance")], whatever [JSON.parse] makes of
    the body. *)
Theorem hibernating_instance_reported :
  (∀ r, isHibernating r = true ↔
        contains (body r) "Instance Hibernating page" ∧
        contains (body r) "<html>" ∧
        statusCode r = 200) ∧
  (∀ error r body_ callback s,
     truthy error = false →
     isHibernating r = true →
     processRequestResults error (Some r) body_ callback s
     = callback VNull (VStr "Hibernating instance")
         (record [Evaluated IsHibernating; Log Error "Hibernating instance"] s)).
Proof.
  split.
  - intros r. unfold ServiceNowConnector.isHibernating.
    rewrite !andb_true_iff, !includes_contains, Z.eqb_eq. tauto.
  - intros. by apply processRequestResults_hibernating.
Qed.

(** C4, amended. Without a transport error and not hibernating, a response
    whose status code is an integer of absolute value at most 2^53 that has,
    in decimal, no [2] followed by two digits, and so every status code from
    0 to 999 outside 200 to 299, is given to the callback as the error:
    [(null, response)]. *)
Theorem bad_status_reported error r body_ callback s :
  truthy error = false →
  isHibernating r = false →
  (safe_integer (statusCode r) ∧
   validResponseRegex_test (Number_toString (statusCode r)) = false) ∨
    (0 ≤ statusCode r ≤ 999 ∧ ¬ 200 ≤ statusCode r ≤ 299) →
  processRequestResults error (Some r) body_ callback s
  = callback VNull (Response_value (Some r))
      (record [Evaluated IsHibernating; Evaluated StatusCodeTest;
               Log Error "Bad response code."] s).
Proof.
  intros He Hh Hs. apply processRequestResults_invalid; try done.
  destruct Hs as [[_ Hs]|[Hr Hs]]; [done |].
  rewrite validResponseRegex_three_digits by done.
  unfold in_2xx. apply andb_false_iff.
  destruct (Z.leb_spec 200 (statusCode r)); [right | by left].
  apply Z.leb_gt. lia.
Qed.

(** C6, amended. Without a transport error, not hibernating and with a status
    from 200 to 299: a non-empty body that parses to a value whose [result] is
    an array of objects gives the callback [(projected list, null)], an empty
    body gives it [(null, null)]. *)
Theorem valid_response_outcome error r body_ s :
  truthy error = false →
  isHibernating r = false →
  200 ≤ statusCode r ≤ 299 →
  (∀ j rs,
     body r ≠ "" →
     JSON_parse (body r) = Normal j →
     get_prop j "result" = Normal (VArr rs ∅) →
     Forall (fun x => is_object x = true) rs →
     ∃ outs, Forall2 renamed_and_stripped rs outs ∧
       ∀ callback,
         processRequestResults error (Some r) body_ callback s
         = callback (VArr outs ∅) VNull (checked s)) ∧
  (body r = "" →
   ∀ callback,
     processRequestResults error (Some r) body_ callback s
     = callback VNull VNull (checked s)).
Proof.
  intros He Hh Hs. pose proof (validResponseRegex_2xx _ Hs) as Hv. split.
  - intros j rs Hb Hj Hrs Hobj. by apply processRequestResults_objects with j.
  - intros Hb callback. by apply processRequestResults_empty.
Qed.

(** C7. A non-empty body that is not JSON: the [SyntaxError] of [JSON.parse]
    leaves the function and the callback is not entered. *)
Theorem malformed_json_not_caught error r body_ s :
  truthy error = false →
  isHibernating r = false →
  200 ≤ statusCode r ≤ 299 →
  body r ≠ "" →
  JSON_parse (body r) = Throw SyntaxError →
  ∀ callback,
    processRequestResults error (Some r) body_ callback s
    = (Throw SyntaxError, checked s).
Proof.
  intros He Hh Hs Hb Hj callback.
  apply processRequestResults_no_parse; try done. by apply validResponseRegex_2xx.
Qed.

(** C9. On the successful path every element of the list given to the callback
    has the own properties [change_ticket_number] and [change_ticket_key];
    where the input had no [number] (no [sys_id]) the property is there with
    the value [undefined]. *)
Theorem renamed_keys_always_present error r body_ s j rs :
  truthy error = false →
  isHibernating r = false →
  200 ≤ statusCode r ≤ 299 →
  body r ≠ "" →
  JSON_parse (body r) = Normal j →
  get_prop j "result" = Normal (VArr rs ∅) →
  Forall (fun x => is_object x = true) rs →
  ∃ outs, Forall2 has_renamed_keys rs outs ∧
    ∀ callback,
      processRequestResults error (Some r) body_ callback s
      = callback (VArr outs ∅) VNull (checked s).
Proof.
  intros He Hh Hs Hb Hj Hrs Hobj.
  destruct (processRequestResults_objects error r body_ s j rs) as (outs & Hall & Hrun);
    try done; [by apply validResponseRegex_2xx |].
  exists outs. split; [| done].
  eapply Forall2_impl; [exact Hall |]. intros x o (H1 & H2 & _).
  unfold has_renamed_keys, field in *. rewrite H1, H2.
  repeat split; try by eexists.
  - by intros ->.
  - by intros ->.
Qed.

(** C10. A non-empty body that is JSON but has no array under [result]: a
    [TypeError] leaves the function and the callback is not entered. *)
Theorem missing_result_array_not_caught error r body_ s j :
  truthy error = false →
  isHibernating r = false →
  200 ≤ statusCode r ≤ 299 →
  body r ≠ "" →
  JSON_parse (body r) = Normal j →
  (∀ rs ps, get_prop j "result" ≠ Normal (VArr rs ps)) →
  ∀ callback,
    processRequestResults error (Some r) body_ callback s
    = (Throw TypeError, checked s).
Proof.
  intros He Hh Hs Hb Hj Hrs callback.
  apply processRequestResults_no_array with j; try done.
  by apply validResponseRegex_2xx.
Qed.

End Properties.

(** ** The URI *)

Lemma append_assoc (a b c : string) : (a +:+ b) +:+ c = a +:+ b +:+ c.
Proof. induction a as [|x a IH]; [done |]. rewrite !append_String. by rewrite IH. Qed.

(** C8, amended. [constructUri] returns the table path, followed by [?] and
    the query when the query is a non-empty string; two calls in a row return
    the same string and leave the stored options as they were; each call adds
    one debug entry [URI: <uri>] to the log, and nothing else. *)
Theorem constructUri_result query s :
  let uri := table_uri (serviceNowTable (this_options s)) query in
  ServiceNowConnector.constructUri query s
  = (Normal uri, record [Log Debug ("URI: " +:+ uri)] s) ∧
  (first ← ServiceNowConnector.constructUri query;
   second ← ServiceNowConnector.constructUri query;
   mret (first, second)) s
  = (Normal (uri, uri),
     record [Log Debug ("URI: " +:+ uri); Log Debug ("URI: " +:+ uri)] s) ∧
  this_options (snd (ServiceNowConnector.constructUri query s)) = this_options s.
Proof.
  assert (Hone : ∀ s', ServiceNowConnector.constructUri query s'
            = (Normal (table_uri (serviceNowTable (this_options s')) query),
               record [Log Debug ("URI: " +:+
                  table_uri (serviceNowTable (this_options s')) query)] s')).
  { intros s'. unfold ServiceNowConnector.constructUri. run.
    destruct query as [[|c q]|]; simpl; try done. by rewrite append_assoc. }
  split; [| split].
  - apply Hone.
  - run. rewrite Hone. run. rewrite Hone. run. by rewrite record_record.
  - by rewrite Hone.
Qed.

(** ** The health check *)

Section Health.

Variable JSON_parse : string -> completion value.
Variable request : RequestOptions -> Reply.

Abbreviation healthcheck := (ServiceNowAdapter.healthcheck JSON_parse request).

Lemma healthcheck_continuation_run this callback result error s :
  ServiceNowAdapter.healthcheck_continuation this callback result error s
  = (ServiceNowAdapter.call_if_given callback result error;; mret VUndefined)
      (record (status_events this error) s).
Proof.
  unfold ServiceNowAdapter.healthcheck_continuation, status_events,
    ServiceNowAdapter.emitOffline, ServiceNowAdapter.emitOnline,
    ServiceNowAdapter.emitStatus.
  destruct (truthy error); run; rewrite !record_record; simpl.
  all: by destruct (ServiceNowAdapter.call_if_given _ _ _ _) as [[[]|e] s'].
Qed.

Lemma healthcheck_run this callback s :
  healthcheck this callback s
  = (ServiceNowConnector.processRequestResults JSON_parse
       (reply_error (request (healthcheck_request s)))
       (reply_response (request (healthcheck_request s)))
       (reply_body (request (healthcheck_request s)))
       (ServiceNowAdapter.healthcheck_continuation this callback);;
     mret VUndefined) (requested s).
Proof.
  unfold ServiceNowAdapter.healthcheck, ServiceNowAdapter.getRecord,
    ServiceNowConnector.get, ServiceNowConnector.sendRequest,
    ServiceNowConnector.constructUri, requested.
  run. rewrite record_record. simpl.
  by destruct (ServiceNowConnector.processRequestResults _ _ _ _ _ _) as [[v|e] s'].
Qed.

(** C5, amended. When the connector reports [(result, error)] to
    [healthcheck]: on an error the adapter logs at error severity a message
    with its id, emits one [OFFLINE] event carrying [{id}] and logs a warning;
    without an error it logs at debug severity, emits one [ONLINE] event
    carrying [{id}] and logs at info severity; then the callback, if there is
    one, is called with [(result, error)].  Without an error the second
    argument is the [null] that the connector reported. *)
Theorem healthcheck_emits_status this callback s result error s' :
  (∀ k, ServiceNowConnector.processRequestResults JSON_parse
          (reply_error (request (healthcheck_request s)))
          (reply_response (request (healthcheck_request s)))
          (reply_body (request (healthcheck_request s))) k (requested s)
        = k result error s') →
  healthcheck this callback s
  = (ServiceNowAdapter.call_if_given callback result error;; mret VUndefined)
      (record (status_events this error) s') ∧
  emitted (status_events this error)
  = [(if truthy error then "OFFLINE" else "ONLINE",
      VObj {[ "id" := VStr (ServiceNowAdapter.id this) ]})] ∧
  (truthy error = false → error = VNull).
Proof.
  intros Hk. split; [| split].
  - rewrite healthcheck_run. run. rewrite Hk, healthcheck_continuation_run. run.
    by destruct (ServiceNowAdapter.call_if_given _ _ _ _) as [[[]|e] s''].
  - unfold status_events. by destruct (truthy error).
  - intros He.
    destruct (processRequestResults_reports JSON_parse
                (reply_error (request (healthcheck_request s)))
                (reply_response (request (healthcheck_request s)))
                (reply_body (request (healthcheck_request s))) (requested s))
      as [(e & s1 & Hthrow) | (data & err & s1 & Hrun & Herr)].
    + specialize (Hk (fun _ e => mret e)). rewrite Hthrow in Hk. discriminate.
    + specialize (Hk (fun _ e => mret e)). rewrite Hrun in Hk.
      assert (err = error) as -> by (unfold mret, M_ret, ret in Hk; congruence).
      destruct Herr; congruence.
Qed.

End Health.

Example adapter_constructed :
  ServiceNowAdapter.new "servicenow-1" (ServiceNowAdapter.props adapter0) blank
  = (Normal adapter0, s0).
Proof. reflexivity. Qed.

Example JSON_parse_ticket_body :
  JSON_parse_text ticket_body = Normal (VObj {[ "result" := VArr [ticket] ∅ ]}).
Proof. vm_compute. reflexivity. Qed.

Example JSON_parse_busy_body :
  JSON_parse_text busy_body = Normal (VObj {[ "result" := VArr [busy] ∅ ]}).
Proof. vm_compute. reflexivity. Qed.

(** Of the seven properties only [priority] is kept. *)
Example project_busy : project busy = Normal busy_projected.
Proof. vm_compute. reflexivity. Qed.

Example removal_set_count : length removal_set = 94%nat ∧ NoDup removal_set.
Proof. split; [reflexivity |]. apply (bool_decide_unpack _). vm_compute. exact I. Qed.

Example project_ticket : project ticket = Normal ticket_projected.
Proof. vm_compute. reflexivity. Qed.

Example removed_fields_count :
  length removed_fields = 96%nat ∧ length (remove_dups removed_fields) = 94%nat.
Proof. split; vm_compute; reflexivity. Qed.

Example removed_fields_named :
  Forall (fun k => k ∈ removed_fields)
    ["number"; "sys_id"; "state"; "risk"; "category"; "work_notes"].
Proof. repeat constructor; apply (bool_decide_unpack _); vm_compute; exact I. Qed.

(** An array among the records is an object and gets the two properties; a
    number among them stops the loop with a [TypeError]; an empty [result]
    is passed on as it is. *)
Example project_array :
  project (VArr [VNum 1] ∅)
  = Normal (VArr [VNum 1] {[ "change_ticket_number" := VUndefined;
                             "change_ticket_key" := VUndefined ]}).
Proof. vm_compute. reflexivity. Qed.

Example processRequestResults_number_record :
  let text := "{" +:+ quoted "result" +:+ ":[{},1]}" in
  ServiceNowConnector.processRequestResults JSON_parse_text
    VNull (Some {| statusCode := 200; body := text |}) (VStr text) host_callback s0
  = (Throw TypeError, checked s0).
Proof. vm_compute. reflexivity. Qed.

Example processRequestResults_no_record :
  let text := "{" +:+ quoted "result" +:+ ":[]}" in
  ServiceNowConnector.processRequestResults JSON_parse_text
    VNull (Some {| statusCode := 200; body := text |}) (VStr text) host_callback s0
  = (Normal VUndefined, record [Called (VArr [] ∅) VNull] (checked s0)).
Proof. vm_compute. reflexivity. Qed.

Example processRequestResults_result_not_array :
  let text := "{" +:+ quoted "result" +:+ ":" +:+ quoted "none" +:+ "}" in
  ServiceNowConnector.processRequestResults JSON_parse_text
    VNull (Some {| statusCode := 200; body := text |}) (VStr text) host_callback s0
  = (Throw TypeError, checked s0).
Proof. vm_compute. reflexivity. Qed.

(** Scenario 1 of the specification, at the connector. *)
Example processRequestResults_ticket :
  ServiceNowConnector.processRequestResults JSON_parse_text
    VNull (Some ok_response) (VStr ticket_body) host_callback s0
  = (Normal VUndefined,
     record [Evaluated IsHibernating; Evaluated StatusCodeTest;
             Called (VArr [ticket_projected] ∅) VNull] s0).
Proof. vm_compute. reflexivity. Qed.

(** Scenarios 1 to 4 of the specification, at the adapter. *)
Example healthcheck_online :
  events (snd (ServiceNowAdapter.healthcheck JSON_parse_text (answer ok_response)
                 adapter0 (Some host_callback) s0))
  = [Log Debug "URI: /api/now/table/change_request";
     Request (healthcheck_request s0);
     Evaluated IsHibernating;
     Evaluated StatusCodeTest;
     Log Debug (ServiceNowAdapter.nl +:+ "External system is available and healthy!");
     Emit "ONLINE" (VObj {[ "id" := VStr "servicenow-1" ]});
     Log Info "ServiceNow: Instance is available.";
     Called (VArr [ticket_projected] ∅) VNull].
Proof. vm_compute. reflexivity. Qed.

Example healthcheck_hibernating :
  events (snd (ServiceNowAdapter.healthcheck JSON_parse_text (answer hibernating_response)
                 adapter0 (Some host_callback) s0))
  = [Log Debug "URI: /api/now/table/change_request";
     Request (healthcheck_request s0);
     Evaluated IsHibernating;
     Log Error "Hibernating instance";
     Log Error (ServiceNowAdapter.nl +:+ "Error with external system with ID:"
                +:+ ServiceNowAdapter.nl +:+ "servicenow-1");
     Emit "OFFLINE" (VObj {[ "id" := VStr "servicenow-1" ]});
     Log Warn "ServiceNow: Instance is unavailable.";
     Called VNull (VStr "Hibernating instance")].
Proof. vm_compute. reflexivity. Qed.

Example healthcheck_status_500 :
  let r := {| statusCode := 500; body := "Internal Server Error" |} in
  events (snd (ServiceNowAdapter.healthcheck JSON_parse_text (answer r)
                 adapter0 (Some host_callback) s0))
  = [Log Debug "URI: /api/now/table/change_request";
     Request (healthcheck_request s0);
     Evaluated IsHibernating;
     Evaluated StatusCodeTest;
     Log Error "Bad response code.";
     Log Error (ServiceNowAdapter.nl +:+ "Error with external system with ID:"
                +:+ ServiceNowAdapter.nl +:+ "servicenow-1");
     Emit "OFFLINE" (VObj {[ "id" := VStr "servicenow-1" ]});
     Log Warn "ServiceNow: Instance is unavailable.";
     Called VNull (Response_value (Some r))].
Proof. vm_compute. reflexivity. Qed.

Example healthcheck_refused :
  events (snd (ServiceNowAdapter.healthcheck JSON_parse_text refuse
                 adapter0 (Some host_callback) s0))
  = [Log Debug "URI: /api/now/table/change_request";
     Request (healthcheck_request s0);
     Log Error "Error present.";
     Log Error (ServiceNowAdapter.nl +:+ "Error with external system with ID:"
                +:+ ServiceNowAdapter.nl +:+ "servicenow-1");
     Emit "OFFLINE" (VObj {[ "id" := VStr "servicenow-1" ]});
     Log Warn "ServiceNow: Instance is unavailable.";
     Called VNull connection_refused].
Proof. vm_compute. reflexivity. Qed.

(** ** Instances of the theorems *)

Lemma successful_get_is_normalized_witness :
  ∃ outs,
    Forall2 (fun input output =>
               own output "change_ticket_number" = Some (field input "number") ∧
               own output "change_ticket_key" = Some (field input "sys_id") ∧
               (∀ k, k ∈ removal_set → own output k = None) ∧
               own output "number" = None ∧ own output "sys_id" = None ∧
               own output "state" = None ∧ own output "risk" = None ∧
               own output "category" = None ∧ own output "work_notes" = None)
            [busy] outs ∧
    ∀ callback,
      ServiceNowConnector.processRequestResults JSON_parse_text
        VNull (Some {| statusCode := 200; body := busy_body |}) (VStr busy_body)
        callback s0
      = callback (VArr outs ∅) VNull (checked s0).
Proof.
  apply (proj1 (successful_get_is_normalized JSON_parse_text
                  VNull {| statusCode := 200; body := busy_body |} (VStr busy_body) s0
                  (VObj {[ "result" := VArr [busy] ∅ ]}) [busy]
                  eq_refl eq_refl ltac:(simpl; lia) ltac:(discriminate)
                  JSON_parse_busy_body ltac:(vm_compute; reflexivity))).
  repeat constructor.
Defined.

Lemma transport_error_skips_checks_witness :
  ServiceNowConnector.processRequestResults JSON_parse_text
    connection_refused None VUndefined host_callback s0
  = host_callback VNull connection_refused (record [Log Error "Error present."] s0).
Proof.
  apply (transport_error_skips_checks JSON_parse_text).
  - right. reflexivity.
  - discriminate.
Defined.

Lemma hibernating_instance_reported_witness :
  ServiceNowConnector.isHibernating hibernating_response = true ∧
  ServiceNowConnector.processRequestResults JSON_parse_text
    VNull (Some hibernating_response) (VStr (body hibernating_response)) host_callback s0
  = host_callback VNull (VStr "Hibernating instance")
      (record [Evaluated IsHibernating; Log Error "Hibernating instance"] s0).
Proof.
  split; [reflexivity |].
  apply (proj2 (hibernating_instance_reported JSON_parse_text)); reflexivity.
Defined.

Lemma bad_status_reported_witness :
  let r := {| statusCode := 500; body := "Internal Server Error" |} in
  let r' := {| statusCode := 1000; body := "" |} in
  ServiceNowConnector.processRequestResults JSON_parse_text
    VNull (Some r) (VStr (body r)) host_callback s0
  = host_callback VNull (Response_value (Some r))
      (record [Evaluated IsHibernating; Evaluated StatusCodeTest;
               Log Error "Bad response code."] s0) ∧
  ServiceNowConnector.processRequestResults JSON_parse_text
    VNull (Some r') (VStr (body r')) host_callback s0
  = host_callback VNull (Response_value (Some r'))
      (record [Evaluated IsHibernating; Evaluated StatusCodeTest;
               Log Error "Bad response code."] s0).
Proof.
  split.
  - apply (bad_status_reported JSON_parse_text).
    + reflexivity.
    + reflexivity.
    + right. simpl. lia.
  - apply (bad_status_reported JSON_parse_text).
    + reflexivity.
    + reflexivity.
    + left. split; [unfold safe_integer; simpl; lia | vm_compute; reflexivity].
Defined.

Lemma valid_response_outcome_witness :
  (∃ outs, Forall2 renamed_and_stripped [ticket] outs ∧
     ∀ callback,
       ServiceNowConnector.processRequestResults JSON_parse_text
         VNull (Some ok_response) (VStr ticket_body) callback s0
       = callback (VArr outs ∅) VNull (checked s0)) ∧
  (∀ callback,
     ServiceNowConnector.processRequestResults JSON_parse_text
       VNull (Some {| statusCode := 204; body := "" |}) (VStr "") callback s0
     = callback VNull VNull (checked s0)).
Proof.
  split.
  - apply (proj1 (valid_response_outcome JSON_parse_text
                    VNull ok_response (VStr ticket_body) s0
                    eq_refl eq_refl ltac:(simpl; lia))
             (VObj {[ "result" := VArr [ticket] ∅ ]}) [ticket]).
    + discriminate.
    + exact JSON_parse_ticket_body.
    + vm_compute. reflexivity.
    + repeat constructor.
  - apply (proj2 (valid_response_outcome JSON_parse_text
                    VNull {| statusCode := 204; body := "" |} (VStr "") s0
                    eq_refl eq_refl ltac:(simpl; lia))).
    reflexivity.
Defined.

Lemma malformed_json_not_caught_witness :
  let r := {| statusCode := 200; body := "<html>Service unavailable</html>" |} in
  ServiceNowConnector.processRequestResults JSON_parse_text
    VNull (Some r) (VStr (body r)) host_callback s0
  = (Throw SyntaxError, checked s0).
Proof.
  apply (malformed_json_not_caught JSON_parse_text).
  - reflexivity.
  - reflexivity.
  - simpl. lia.
  - discriminate.
  - vm_compute. reflexivity.
Defined.

Lemma renamed_keys_always_present_witness :
  ∃ outs, Forall2 has_renamed_keys [anonymous] outs ∧
    ∀ callback,
      ServiceNowConnector.processRequestResults JSON_parse_text
        VNull (Some {| statusCode := 200; body := anonymous_body |})
        (VStr anonymous_body) callback s0
      = callback (VArr outs ∅) VNull (checked s0).
Proof.
  apply (renamed_keys_always_present JSON_parse_text
           VNull {| statusCode := 200; body := anonymous_body |}
           (VStr anonymous_body) s0
           (VObj {[ "result" := VArr [anonymous] ∅ ]}) [anonymous]).
  - reflexivity.
  - reflexivity.
  - simpl. lia.
  - discriminate.
  - vm_compute. reflexivity.
  - vm_compute. reflexivity.
  - repeat constructor.
Defined.

Lemma missing_result_array_not_caught_witness :
  let r := {| statusCode := 200; body := "{}" |} in
  ServiceNowConnector.processRequestResults JSON_parse_text
    VNull (Some r) (VStr (body r)) host_callback s0
  = (Throw TypeError, checked s0).
Proof.
  apply (missing_result_array_not_caught JSON_parse_text) with (j := VObj ∅).
  - reflexivity.
  - reflexivity.
  - simpl. lia.
  - discriminate.
  - vm_compute. reflexivity.
  - intros rs ps. vm_compute. discriminate.
Defined.

Lemma healthcheck_emits_status_witness :
  (ServiceNowAdapter.healthcheck JSON_parse_text refuse adapter0 (Some host_callback) s0
   = (ServiceNowAdapter.call_if_given (Some host_callback) VNull connection_refused;;
      mret VUndefined)
       (record (status_events adapter0 connection_refused)
          (record [Log Error "Error present."] (requested s0))) ∧
   emitted (status_events adapter0 connection_refused)
   = [("OFFLINE", VObj {[ "id" := VStr "servicenow-1" ]})] ∧
   (truthy connection_refused = false → connection_refused = VNull)) ∧
  (ServiceNowAdapter.healthcheck JSON_parse_text (answer ok_response) adapter0
     (Some host_callback) s0
   = (ServiceNowAdapter.call_if_given (Some host_callback)
        (VArr [ticket_projected] ∅) VNull;;
      mret VUndefined)
       (record (status_events adapter0 VNull) (checked (requested s0))) ∧
   emitted (status_events adapter0 VNull)
   = [("ONLINE", VObj {[ "id" := VStr "servicenow-1" ]})] ∧
   (truthy VNull = false → VNull = VNull)).
Proof.
  split.
  - apply (healthcheck_emits_status JSON_parse_text refuse).
    intros k. reflexivity.
  - apply (healthcheck_emits_status JSON_parse_text (answer ok_response)).
    intros k. vm_compute. reflexivity.
Defined.

(** ** Counterexamples *)

(** C4 as stated fails: the status code 1200 is outside 200 to 299, the
    response is not hibernating and there is no transport error, yet the
    pattern finds [200] in [1200], the body is read and the callback receives
    [(projected list, null)] and not [(null, response)]. *)
Lemma status_1200_taken_as_valid :
  let r := {| statusCode := 1200; body := ticket_body |} in
  (1200 <? 200) || (299 <? 1200) = true ∧
  ServiceNowConnector.isHibernating r = false ∧
  ServiceNowConnector.processRequestResults JSON_parse_text
    VNull (Some r) (VStr (body r)) host_callback s0
  = (Normal VUndefined,
     record [Evaluated IsHibernating; Evaluated StatusCodeTest;
             Called (VArr [ticket_projected] ∅) VNull] s0) ∧
  ServiceNowConnector.processRequestResults JSON_parse_text
    VNull (Some r) (VStr (body r)) host_callback s0
  ≠ host_callback VNull (Response_value (Some r))
      (record [Evaluated IsHibernating; Evaluated StatusCodeTest;
               Log Error "Bad response code."] s0).
Proof.
  repeat split; try (vm_compute; reflexivity).
  vm_compute. discriminate.
Qed.

(** C5 as stated fails: on a successful health check the callback is called
    with [null] as its second argument, not with [undefined]. *)
Lemma healthcheck_success_passes_null :
  events (snd (ServiceNowAdapter.healthcheck JSON_parse_text (answer ok_response)
                 adapter0 (Some host_callback) s0))
  = [Log Debug "URI: /api/now/table/change_request";
     Request (healthcheck_request s0);
     Evaluated IsHibernating;
     Evaluated StatusCodeTest;
     Log Debug (ServiceNowAdapter.nl +:+ "External system is available and healthy!");
     Emit "ONLINE" (VObj {[ "id" := VStr "servicenow-1" ]});
     Log Info "ServiceNow: Instance is available.";
     Called (VArr [ticket_projected] ∅) VNull] ∧
  Called (VArr [ticket_projected] ∅) VNull
  ≠ Called (VArr [ticket_projected] ∅) VUndefined.
Proof. split; [vm_compute; reflexivity | discriminate]. Qed.

(** C6 as stated fails: with a status of 200 and a non-empty body that is not
    JSON the callback is not entered at all. *)
Lemma nonempty_body_without_callback :
  let r := {| statusCode := 200; body := "<html>Service unavailable</html>" |} in
  body r ≠ "" ∧
  ServiceNowConnector.isHibernating r = false ∧
  ServiceNowConnector.processRequestResults JSON_parse_text
    VNull (Some r) (VStr (body r)) host_callback s0
  = (Throw SyntaxError, checked s0) ∧
  events (checked s0) = [Evaluated IsHibernating; Evaluated StatusCodeTest].
Proof. repeat split; try (vm_compute; reflexivity). discriminate. Qed.

(** C8 as stated fails: a call of [constructUri] writes a debug entry to the
    log, and an empty query, though given, is not appended. *)
Lemma constructUri_logs_and_skips_empty_query :
  ServiceNowConnector.constructUri (Some "") s0
  = (Normal "/api/now/table/change_request",
     record [Log Debug "URI: /api/now/table/change_request"] s0) ∧
  "/api/now/table/change_request" ≠ "/api/now/table/change_request?" ∧
  events (snd (ServiceNowConnector.constructUri (Some "") s0)) ≠ events s0 ∧
  events (snd (ServiceNowConnector.constructUri (Some "sysparm_limit=1") s0))
  = [Log Debug "URI: /api/now/table/change_request?sysparm_limit=1"].
Proof. repeat split; try (vm_compute; reflexivity); vm_compute; discriminate. Qed.

(** * Further properties of the connector and the adapter *)

(** ** The status code pattern *)

Lemma validResponseRegex_here_spec (s : string) :
  validResponseRegex_here s = true ↔
  ∃ d1 d2 after, s = String "2" (String d1 (String d2 after)) ∧
                 is_digit d1 = true ∧ is_digit d2 = true.
Proof.
  destruct s as [|c0 [|c1 [|c2 rest]]]; simpl;
    try (split; [done | by intros (d1 & d2 & after & H & _)]).
  rewrite !andb_true_iff, Ascii.eqb_eq. split.
  - intros [[-> H1] H2]. by exists c1, c2, rest.
  - intros (d1 & d2 & after & H & H1 & H2). by simplify_eq.
Qed.

(** X1. [validResponseRegex.test] accepts exactly the strings that have a [2]
    followed by two decimal digits at some position: nothing ties the match
    to the start or the end of the string. *)
Theorem validResponseRegex_test_unanchored (s : string) :
  validResponseRegex_test s = true ↔ has_2dd s.
Proof.
  unfold has_2dd. induction s as [|c s IH].
  - split; [done |]. intros (before & d1 & d2 & after & H & _).
    by destruct before.
  - change (validResponseRegex_test (String c s))
      with (validResponseRegex_here (String c s) || validResponseRegex_test s).
    rewrite orb_true_iff, validResponseRegex_here_spec, IH. split.
    + intros [(d1 & d2 & after & H & H1 & H2) | (before & d1 & d2 & after & H & H1 & H2)].
      * by exists EmptyString, d1, d2, after.
      * exists (String c before), d1, d2, after. rewrite append_String. by rewrite H.
    + intros (before & d1 & d2 & after & H & H1 & H2).
      destruct before as [|b before].
      * left. by exists d1, d2, after.
      * right. exists before, d1, d2, after. rewrite append_String in H.
        split; [congruence | done].
Qed.

(** X2. Among the status codes of at most three digits, of either sign, the
    test accepts exactly those whose absolute value is from 200 to 299: on
    the codes HTTP has it is the test for 2xx, and a negative code such as
    -204 passes it too. *)
Theorem validResponseRegex_up_to_three_digits (n : Z) :
  -999 ≤ n ≤ 999 →
  validResponseRegex_test (Number_toString n) = in_2xx (Z.abs n).
Proof.
  intros Hn. destruct (Z.le_gt_cases 0 n) as [Hpos|Hneg].
  - rewrite Z.abs_eq by done. apply validResponseRegex_three_digits. lia.
  - assert (Hall : agrees_between 1000 = true) by (vm_compute; reflexivity).
    unfold agrees_between in Hall. rewrite forallb_forall in Hall.
    specialize (Hall (Z.to_nat (- n))).
    rewrite Z2Nat.id in Hall by lia. rewrite Z.opp_involutive in Hall.
    rewrite Z.abs_neq by lia.
    apply Bool.eqb_prop, Hall, in_seq. lia.
Qed.

(** ** The projection *)

Lemma dom_drop (ks : list string) (m : gmap string value) :
  dom (drop ks m) = dom m ∖ list_to_set ks.
Proof.
  unfold drop. revert m. induction ks as [|k ks IH]; intros m; simpl.
  - by rewrite difference_empty_L.
  - rewrite IH, dom_delete_L. apply difference_difference_l_L.
Qed.

Lemma project_normal (x o : value) :
  project x = Normal o →
  (∃ m, x = VObj m ∧ o = VObj (projected m)) ∨
  (∃ l m, x = VArr l m ∧ o = VArr l (projected m)).
Proof.
  intros H. destruct (is_object x) eqn:Hx.
  - destruct x as [| | | | |l m|m]; try discriminate.
    + right. exists l, m. rewrite project_VArr in H. split; congruence.
    + left. exists m. rewrite project_VObj in H. split; congruence.
  - rewrite project_primitive in H by done. discriminate.
Qed.

(** X3. The own keys of a projected record are the keys of the input outside
    the removal set, and the two renamed keys: nothing else is added and
    nothing else is lost. *)
Theorem project_keys (x : value) :
  is_object x = true →
  ∃ o, project x = Normal o ∧
       keys o = (keys x ∖ list_to_set removed_fields)
                ∪ {[ "change_ticket_number"; "change_ticket_key" ]}.
Proof.
  assert (Hdom : ∀ m : gmap string value,
            dom (projected m) = (dom m ∖ list_to_set removed_fields)
                                ∪ {[ "change_ticket_number"; "change_ticket_key" ]}).
  { intros m. unfold projected. rewrite dom_drop, !dom_insert_L.
    destruct renamed_not_removed as [Hn Hk].
    apply (not_elem_of_list_to_set (C := gset string)) in Hn, Hk.
    generalize dependent (list_to_set (C := gset string) removed_fields).
    intros R Hn Hk. apply set_eq. intros k.
    rewrite elem_of_difference, !elem_of_union, elem_of_difference, !elem_of_singleton.
    split.
    - intros [[->|[->|Hin]] Hout]; auto.
    - intros [[Hin Hout]|[->| ->]]; auto. }
  destruct x as [| | | | |l m|m]; try discriminate; intros _.
  - exists (VArr l (projected m)). split; [apply project_VArr | apply Hdom].
  - exists (VObj (projected m)). split; [apply project_VObj | apply Hdom].
Qed.

(** X4. The projection is not idempotent: projecting a projected record again
    succeeds, and leaves [change_ticket_number] and [change_ticket_key] in
    place with the value [undefined], because the first pass deleted [number]
    and [sys_id]; the other properties stay as the first pass left them. *)
Theorem project_twice_erases_ticket (x o : value) :
  project x = Normal o →
  ∃ o', project o = Normal o' ∧
        own o' "change_ticket_number" = Some VUndefined ∧
        own o' "change_ticket_key" = Some VUndefined ∧
        ∀ k, k ≠ "change_ticket_number" → k ≠ "change_ticket_key" →
             own o' k = own o k.
Proof.
  assert (Htwice : ∀ m : gmap string value,
            projected (projected m) !! "change_ticket_number" = Some VUndefined ∧
            projected (projected m) !! "change_ticket_key" = Some VUndefined ∧
            ∀ k, k ≠ "change_ticket_number" → k ≠ "change_ticket_key" →
                 projected (projected m) !! k = projected m !! k).
  { intros m.
    destruct (projected_spec m) as (_ & _ & Hgone & _).
    destruct (projected_spec (projected m)) as (Hn & Hk & Hgone' & Hkept).
    rewrite Hn, Hk.
    rewrite (Hgone "number"), (Hgone "sys_id")
      by (apply (bool_decide_unpack _); vm_compute; exact I).
    repeat split; try done. intros k H1 H2.
    destruct (decide (k ∈ removed_fields)) as [Hin|Hout].
    - by rewrite Hgone, Hgone'.
    - by apply Hkept. }
  intros H. destruct (project_normal x o H) as [(m & -> & ->) | (l & m & -> & ->)].
  - exists (VObj (projected (projected m))). split; [apply project_VObj | apply Htwice].
  - exists (VArr l (projected (projected m))). split; [apply project_VArr | apply Htwice].
Qed.

(** ** The connector *)

Lemma internal_quiet (es : list event) :
  Forall internal es → requests es = [] ∧ emitted es = [].
Proof.
  induction 1 as [|e es He _ [IH1 IH2]]; [done |].
  destruct e; try done; simpl in *; by rewrite ?IH1, ?IH2.
Qed.

Section Connector_properties.

Variable JSON_parse : string -> completion value.
Variable request : RequestOptions -> Reply.

Abbreviation processRequestResults' :=
  (ServiceNowConnector.processRequestResults JSON_parse).
Abbreviation sendRequest := (ServiceNowConnector.sendRequest JSON_parse request).

(** Every run of [processRequestResults] ends in one of two ways, after events
    that are log entries and notes only. *)
Lemma processRequestResults_outcome error response body_ s :
  ∃ es, Forall internal es ∧
    ((∃ e, ∀ callback,
        processRequestResults' error response body_ callback s = (Throw e, record es s)) ∨
     (∃ data err,
        (∀ callback,
           processRequestResults' error response body_ callback s
           = callback data err (record es s)) ∧
        ((data = VNull ∧ truthy err = true) ∨ err = VNull))).
Proof.
  destruct (truthy error) eqn:He.
  { exists [Log Error "Error present."]. split; [by repeat constructor |].
    right. exists VNull, error. split; [| by left].
    intros callback. by apply processRequestResults_error. }
  destruct response as [r|].
  2:{ exists [Evaluated IsHibernating]. split; [by repeat constructor |].
      left. exists TypeError. intros callback. by apply processRequestResults_undefined. }
  destruct (ServiceNowConnector.isHibernating r) eqn:Hh.
  { exists [Evaluated IsHibernating; Log Error "Hibernating instance"].
    split; [by repeat constructor |].
    right. exists VNull, (VStr "Hibernating instance"). split; [| by left].
    intros callback. by apply processRequestResults_hibernating. }
  destruct (validResponseRegex_test (Number_toString (statusCode r))) eqn:Hv.
  2:{ exists [Evaluated IsHibernating; Evaluated StatusCodeTest;
              Log Error "Bad response code."].
      split; [by repeat constructor |].
      right. exists VNull, (Response_value (Some r)). split; [| by left].
      intros callback. by apply processRequestResults_invalid. }
  exists [Evaluated IsHibernating; Evaluated StatusCodeTest].
  split; [by repeat constructor |].
  destruct (truthy (VStr (body r))) eqn:Hb.
  2:{ right. exists VNull, VNull. split; [| by right].
      intros callback. rewrite processRequestResults_valid by done. by rewrite Hb. }
  destruct (jsonBody ← JSON_parse (body r);
            results ← get_prop jsonBody "result";
            forEach results project) as [results|e] eqn:Hrun.
  - right. exists results, VNull. split; [| by right].
    intros callback. rewrite processRequestResults_valid by done.
    rewrite Hb. run. unfold mbind in Hrun. rewrite Hrun. reflexivity.
  - left. exists e. intros callback. rewrite processRequestResults_valid by done.
    rewrite Hb. run. unfold mbind in Hrun. rewrite Hrun. reflexivity.
Qed.

(** X5. [processRequestResults] either raises an exception without entering
    the callback, or enters the callback once, as its last step, and then
    never with both data and an error: the arguments are [(null, error)] with
    a truthy error, or [(data, null)]. *)
Theorem callback_gets_data_or_error error response body_ s :
  (∃ e s', ∀ callback,
      processRequestResults' error response body_ callback s = (Throw e, s')) ∨
  (∃ data err s',
      (∀ callback,
         processRequestResults' error response body_ callback s = callback data err s') ∧
      ((data = VNull ∧ truthy err = true) ∨ err = VNull)).
Proof.
  destruct (processRequestResults_outcome error response body_ s)
    as (es & _ & [(e & H) | (data & err & H & Hch)]).
  - left. by exists e, (record es s).
  - right. by exists data, err, (record es s).
Qed.

(** X6. Without a transport error and without a response object (the second
    argument is [undefined]) the first check reads a property of [undefined]:
    a [TypeError] leaves the function and the callback is not entered. *)
Theorem missing_response_not_caught error body_ s :
  truthy error = false →
  ∀ callback,
    processRequestResults' error None body_ callback s
    = (Throw TypeError, record [Evaluated IsHibernating] s).
Proof. intros He callback. by apply processRequestResults_undefined. Qed.

(** X7. A response whose status is not 200 is never taken as hibernating,
    whatever its body holds; and with a status from 0 to 999 outside 200 to
    299 (a hibernating page served with 503, say) the callback receives the
    response as the error, after the log entry [Bad response code.], and not
    ["Hibernating instance"]. *)
Theorem hibernating_page_needs_status_200 :
  (∀ r, statusCode r ≠ 200 → ServiceNowConnector.isHibernating r = false) ∧
  (∀ error r body_ callback s,
     truthy error = false →
     0 ≤ statusCode r ≤ 999 →
     ¬ 200 ≤ statusCode r ≤ 299 →
     processRequestResults' error (Some r) body_ callback s
     = callback VNull (Response_value (Some r))
         (record [Evaluated IsHibernating; Evaluated StatusCodeTest;
                  Log Error "Bad response code."] s)).
Proof.
  assert (Hnot : ∀ r, statusCode r ≠ 200 → ServiceNowConnector.isHibernating r = false).
  { intros r Hr. unfold ServiceNowConnector.isHibernating.
    replace (statusCode r =? 200) with false by (symmetry; by apply Z.eqb_neq).
    apply andb_false_r. }
  split; [done |]. intros error r body_ callback s He Hr Hs.
  apply processRequestResults_invalid; try done.
  - apply Hnot. lia.
  - rewrite validResponseRegex_three_digits by done.
    unfold in_2xx. apply andb_false_iff.
    destruct (Z.leb_spec 200 (statusCode r)); [right | by left].
    apply Z.leb_gt. lia.
Qed.

(** X8. [sendRequest] makes one request, before anything of the reply is
    looked at: its method is the method of the call options, its credentials
    and base URL are the stored ones, its path is the table path, followed by
    [?] and the query only when the call options have a non-empty query.  The
    reply then goes through [processRequestResults] to the callback, and
    [sendRequest] itself returns [undefined]. *)
Theorem sendRequest_makes_one_request callOptions callback s :
  let requestOptions :=
    {| req_method := method callOptions;
       auth_user := username (this_options s);
       auth_pass := password (this_options s);
       baseUrl := url (this_options s);
       uri := table_uri (serviceNowTable (this_options s)) (query callOptions) |} in
  sendRequest callOptions callback s
  = (processRequestResults'
       (reply_error (request requestOptions))
       (reply_response (request requestOptions))
       (reply_body (request requestOptions)) callback;;
     mret VUndefined)
      (record [Log Debug ("URI: " +:+ uri requestOptions); Request requestOptions] s).
Proof.
  unfold ServiceNowConnector.sendRequest, ServiceNowConnector.constructUri.
  destruct (query callOptions) as [[|c q]|]; run; rewrite ?record_record;
    rewrite ?append_assoc; reflexivity.
Qed.

End Connector_properties.

(** ** The adapter *)

Lemma emitted_app (es1 es2 : list event) :
  emitted (es1 ++ es2) = (emitted es1 ++ emitted es2)%list.
Proof. apply omap_app. Qed.

Lemma requests_app (es1 es2 : list event) :
  requests (es1 ++ es2) = (requests es1 ++ requests es2)%list.
Proof. apply omap_app. Qed.

Section Adapter_properties.

Variable JSON_parse : string -> completion value.
Variable request : RequestOptions -> Reply.

Abbreviation processReply s :=
  (ServiceNowConnector.processRequestResults JSON_parse
     (reply_error (request (healthcheck_request s)))
     (reply_response (request (healthcheck_request s)))
     (reply_body (request (healthcheck_request s)))).
Abbreviation healthcheck' := (ServiceNowAdapter.healthcheck JSON_parse request).
Abbreviation connect := (ServiceNowAdapter.connect JSON_parse request).
Abbreviation getRecord := (ServiceNowAdapter.getRecord JSON_parse request).
Abbreviation postRecord := (ServiceNowAdapter.postRecord JSON_parse request).

Lemma healthcheck_reported this callback s data err es :
  (∀ k, processReply s k (requested s) = k data err (record es (requested s))) →
  healthcheck' this callback s
  = (ServiceNowAdapter.call_if_given callback data err;; mret VUndefined)
      (record (es ++ status_events this err) (requested s)).
Proof.
  intros Hk. rewrite healthcheck_run. run.
  rewrite Hk, healthcheck_continuation_run, record_record. run.
  by destruct (ServiceNowAdapter.call_if_given _ _ _ _) as [[[]|e] s''].
Qed.

Lemma healthcheck_raised this callback s e es :
  (∀ k, processReply s k (requested s) = (Throw e, record es (requested s))) →
  healthcheck' this callback s = (Throw e, record es (requested s)).
Proof. intros Hk. rewrite healthcheck_run. run. by rewrite Hk. Qed.

(** [healthcheck] without a callback. *)
Lemma healthcheck_alone this s :
  ∃ es, Forall internal es ∧
    ((∃ e, healthcheck' this None s = (Throw e, record es (requested s))) ∨
     (∃ err, healthcheck' this None s
             = (Normal VUndefined, record (es ++ status_events this err) (requested s)))).
Proof.
  destruct (processRequestResults_outcome JSON_parse
              (reply_error (request (healthcheck_request s)))
              (reply_response (request (healthcheck_request s)))
              (reply_body (request (healthcheck_request s))) (requested s))
    as (es & Hes & [(e & H) | (data & err & H & _)]); exists es; (split; [done |]).
  - left. exists e. by apply healthcheck_raised.
  - right. exists err. by rewrite (healthcheck_reported this None s data err es).
Qed.

(** X9. [getRecord] and [postRecord] make the same request but for the method,
    [GET] and [POST]: the bare table path without a query, the stored
    credentials, no body.  The reply goes through [processRequestResults] to
    the callback, and both return [undefined]. *)
Theorem getRecord_postRecord_requests this callback s :
  getRecord this callback s
  = (ServiceNowConnector.processRequestResults JSON_parse
       (reply_error (request (table_request "GET" s)))
       (reply_response (request (table_request "GET" s)))
       (reply_body (request (table_request "GET" s))) callback;;
     mret VUndefined)
      (record [Log Debug ("URI: " +:+ uri (table_request "GET" s));
               Request (table_request "GET" s)] s) ∧
  postRecord this callback s
  = (ServiceNowConnector.processRequestResults JSON_parse
       (reply_error (request (table_request "POST" s)))
       (reply_response (request (table_request "POST" s)))
       (reply_body (request (table_request "POST" s))) callback;;
     mret VUndefined)
      (record [Log Debug ("URI: " +:+ uri (table_request "POST" s));
               Request (table_request "POST" s)] s).
Proof.
  split.
  - unfold ServiceNowAdapter.getRecord, ServiceNowConnector.get,
      ServiceNowConnector.sendRequest, ServiceNowConnector.constructUri.
    run. rewrite record_record. simpl.
    by destruct (ServiceNowConnector.processRequestResults _ _ _ _ _ _) as [[v|e] s'].
  - unfold ServiceNowAdapter.postRecord, ServiceNowConnector.post,
      ServiceNowConnector.sendRequest, ServiceNowConnector.constructUri.
    run. rewrite record_record. simpl.
    by destruct (ServiceNowConnector.processRequestResults _ _ _ _ _ _) as [[v|e] s'].
Qed.

(** X10. [connect] makes exactly one request, the [GET] of the table, and at
    most one status event: when the reply is processed to the end it emits
    one, [OFFLINE] or [ONLINE], and returns [undefined]; when processing the
    reply raises an exception it emits none.  The stored options stay as they
    were. *)
Theorem connect_one_request_one_status this s :
  ∃ es,
    snd (connect this s) = record es s ∧
    requests es = [healthcheck_request s] ∧
    ((fst (connect this s) = Normal VUndefined ∧
      ∃ error,
        emitted es = [(if truthy error then "OFFLINE" else "ONLINE",
                       VObj {[ "id" := VStr (ServiceNowAdapter.id this) ]})]) ∨
     (∃ e, fst (connect this s) = Throw e ∧ emitted es = [])).
Proof.
  destruct (healthcheck_alone this s) as (es & Hes & [(e & H) | (err & H)]);
    destruct (internal_quiet es Hes) as [Hreq Hem];
    unfold ServiceNowAdapter.connect; run; rewrite H.
  - exists ([Log Debug ("URI: /api/now/table/" +:+ serviceNowTable (this_options s));
             Request (healthcheck_request s)] ++ es)%list.
    split; [simpl; unfold requested; by rewrite record_record |].
    rewrite requests_app, emitted_app, Hreq, Hem. split; [done |].
    right. by exists e.
  - exists ([Log Debug ("URI: /api/now/table/" +:+ serviceNowTable (this_options s));
             Request (healthcheck_request s)] ++ es ++ status_events this err)%list.
    split; [simpl; unfold requested; by rewrite record_record |].
    rewrite requests_app, emitted_app, requests_app, emitted_app, Hreq, Hem.
    split; [unfold status_events; by destruct (truthy err) |].
    left. split; [done |]. exists err. unfold status_events. by destruct (truthy err).
Qed.

(** X11. An adapter constructed from [(id, adapterProperties)] and then
    connected sends its one request to [adapterProperties.url], as the user
    [auth.username] with the password [auth.password], for the table
    [serviceNowTable]. *)
Theorem new_then_connect_request id adapterProperties s :
  requests (events (snd ((this ← ServiceNowAdapter.new id adapterProperties;
                          connect this) s)))
  = (requests (events s)
     ++ [{| req_method := "GET";
            auth_user := ServiceNowAdapter.auth_username adapterProperties;
            auth_pass := ServiceNowAdapter.auth_password adapterProperties;
            baseUrl := ServiceNowAdapter.props_url adapterProperties;
            uri := "/api/now/table/"
                   +:+ ServiceNowAdapter.props_serviceNowTable adapterProperties |}])%list.
Proof.
  unfold ServiceNowAdapter.new, ServiceNowConnector.new. run.
  set (this := {| ServiceNowAdapter.id := id; ServiceNowAdapter.props := adapterProperties |}).
  set (s1 := {| this_options := _; events := events s |}).
  destruct (healthcheck_alone this s1) as (es & Hes & [(e & H) | (err & H)]);
    destruct (internal_quiet es Hes) as [Hreq Hem];
    unfold ServiceNowAdapter.connect; run; rewrite H; simpl;
    rewrite !requests_app, ?Hreq; simpl.
  - by rewrite app_nil_r.
  - unfold status_events. destruct (truthy err); simpl; by rewrite app_nil_r.
Qed.

Lemma status_events_offline this error :
  truthy error = true → status_events this error = offline_events this.
Proof. intros H. unfold status_events. by rewrite H. Qed.

Lemma status_events_online this error :
  truthy error = false → status_events this error = online_events this.
Proof. intros H. unfold status_events. by rewrite H. Qed.

(** X12. When [request] reports a transport error, [healthcheck] looks at
    nothing of the response: it logs, emits [OFFLINE] once, and calls the
    callback, if there is one, with [(null, error)]. *)
Theorem healthcheck_transport_error_offline this callback s :
  truthy (reply_error (request (healthcheck_request s))) = true →
  healthcheck' this callback s
  = (ServiceNowAdapter.call_if_given callback
       VNull (reply_error (request (healthcheck_request s)));;
     mret VUndefined)
      (record (Log Error "Error present." :: offline_events this) (requested s)).
Proof.
  intros He.
  rewrite (healthcheck_reported this callback s VNull
             (reply_error (request (healthcheck_request s))) [Log Error "Error present."]).
  - by rewrite status_events_offline.
  - intros k. by apply processRequestResults_error.
Qed.

(** X13. When the reply is a hibernating page, or has a status that fails the
    status test, [healthcheck] emits [OFFLINE] once and calls the callback, if
    there is one, with the error: the string ["Hibernating instance"] in the
    first case, the response itself in the second. *)
Theorem healthcheck_bad_reply_offline this callback s r :
  truthy (reply_error (request (healthcheck_request s))) = false →
  reply_response (request (healthcheck_request s)) = Some r →
  (ServiceNowConnector.isHibernating r = true →
   healthcheck' this callback s
   = (ServiceNowAdapter.call_if_given callback VNull (VStr "Hibernating instance");;
      mret VUndefined)
       (record ([Evaluated IsHibernating; Log Error "Hibernating instance"]
                ++ offline_events this) (requested s))) ∧
  (ServiceNowConnector.isHibernating r = false →
   validResponseRegex_test (Number_toString (statusCode r)) = false →
   healthcheck' this callback s
   = (ServiceNowAdapter.call_if_given callback VNull (Response_value (Some r));;
      mret VUndefined)
       (record ([Evaluated IsHibernating; Evaluated StatusCodeTest;
                 Log Error "Bad response code."]
                ++ offline_events this) (requested s))).
Proof.
  intros He Hr. split.
  - intros Hh.
    rewrite (healthcheck_reported this callback s VNull (VStr "Hibernating instance")
               [Evaluated IsHibernating; Log Error "Hibernating instance"]).
    + by rewrite status_events_offline.
    + intros k. rewrite Hr. by apply processRequestResults_hibernating.
  - intros Hh Hv.
    rewrite (healthcheck_reported this callback s VNull (Response_value (Some r))
               [Evaluated IsHibernating; Evaluated StatusCodeTest;
                Log Error "Bad response code."]).
    + by rewrite status_events_offline.
    + intros k. rewrite Hr. by apply processRequestResults_invalid.
Qed.

(** X14. When the reply passes both checks, [healthcheck] emits [ONLINE] once:
    with an empty body the callback receives [(null, null)], and with a body
    that parses to a value whose [result] is an array of objects, also an
    empty array, it receives [(projected list, null)]. *)
Theorem healthcheck_good_reply_online this callback s r :
  truthy (reply_error (request (healthcheck_request s))) = false →
  reply_response (request (healthcheck_request s)) = Some r →
  ServiceNowConnector.isHibernating r = false →
  validResponseRegex_test (Number_toString (statusCode r)) = true →
  (body r = "" →
   healthcheck' this callback s
   = (ServiceNowAdapter.call_if_given callback VNull VNull;; mret VUndefined)
       (record ([Evaluated IsHibernating; Evaluated StatusCodeTest]
                ++ online_events this) (requested s))) ∧
  (∀ j rs,
     body r ≠ "" →
     JSON_parse (body r) = Normal j →
     get_prop j "result" = Normal (VArr rs ∅) →
     Forall (fun x => is_object x = true) rs →
     ∃ outs, Forall2 renamed_and_stripped rs outs ∧
       healthcheck' this callback s
       = (ServiceNowAdapter.call_if_given callback (VArr outs ∅) VNull;;
          mret VUndefined)
           (record ([Evaluated IsHibernating; Evaluated StatusCodeTest]
                    ++ online_events this) (requested s))).
Proof.
  intros He Hr Hh Hv. split.
  - intros Hb.
    rewrite (healthcheck_reported this callback s VNull VNull
               [Evaluated IsHibernating; Evaluated StatusCodeTest]).
    + by rewrite status_events_online.
    + intros k. rewrite Hr. by apply processRequestResults_empty.
  - intros j rs Hb Hj Hrs Hobj.
    destruct (processRequestResults_objects JSON_parse
                (reply_error (request (healthcheck_request s))) r
                (reply_body (request (healthcheck_request s))) (requested s) j rs)
      as (outs & Hall & Hrun); try done.
    exists outs. split; [done |].
    rewrite (healthcheck_reported this callback s (VArr outs ∅) VNull
               [Evaluated IsHibernating; Evaluated StatusCodeTest]).
    + by rewrite status_events_online.
    + intros k. rewrite Hr. apply Hrun.
Qed.

(** X15. When the reply has a status from 200 to 299, is not hibernating and
    [JSON.parse] raises an exception on its non-empty body, the exception is
    raised while the reply is processed, before any continuation is entered:
    the health check produces the URI entry, the request and the notes of the
    two checks and nothing more, so no status event, neither [ONLINE] nor
    [OFFLINE], is emitted and the callback is not entered. *)
Theorem healthcheck_malformed_body_no_status this callback s r e :
  truthy (reply_error (request (healthcheck_request s))) = false →
  reply_response (request (healthcheck_request s)) = Some r →
  ServiceNowConnector.isHibernating r = false →
  200 ≤ statusCode r ≤ 299 →
  body r ≠ "" →
  JSON_parse (body r) = Throw e →
  (∀ k, processReply s k (requested s) = (Throw e, checked (requested s))) ∧
  snd (healthcheck' this callback s) = checked (requested s) ∧
  emitted (events (checked (requested s))) = emitted (events s).
Proof.
  intros He Hr Hh Hs Hb Hj.
  pose proof (validResponseRegex_2xx _ Hs) as Hv.
  assert (Hk : ∀ k, processReply s k (requested s) = (Throw e, checked (requested s))).
  { intros k. rewrite Hr. by apply processRequestResults_no_parse. }
  split; [done |]. split.
  - by rewrite (healthcheck_raised this callback s e
                  [Evaluated IsHibernating; Evaluated StatusCodeTest]).
  - unfold checked, requested. simpl. rewrite !emitted_app. simpl.
    by rewrite !app_nil_r.
Qed.

(** X16. [postRecord] reads the reply as [getRecord] does, as a list of
    records: when the reply has a status from 200 to 299, is not hibernating
    and its body parses to a value whose [result] is a single object and not
    an array, [results.forEach] raises a [TypeError] while the reply is
    processed, before any continuation is entered: [postRecord] produces the
    URI entry, the request and the notes of the two checks and nothing more,
    and the callback is not entered. *)
Theorem postRecord_single_record_not_delivered this callback s r j m :
  truthy (reply_error (request (table_request "POST" s))) = false →
  reply_response (request (table_request "POST" s)) = Some r →
  ServiceNowConnector.isHibernating r = false →
  200 ≤ statusCode r ≤ 299 →
  body r ≠ "" →
  JSON_parse (body r) = Normal j →
  get_prop j "result" = Normal (VObj m) →
  let sent := record [Log Debug ("URI: " +:+ uri (table_request "POST" s));
                      Request (table_request "POST" s)] s in
  (∀ k, ServiceNowConnector.processRequestResults JSON_parse
          (reply_error (request (table_request "POST" s)))
          (reply_response (request (table_request "POST" s)))
          (reply_body (request (table_request "POST" s))) k sent
        = (Throw TypeError, checked sent)) ∧
  snd (postRecord this callback s) = checked sent.
Proof.
  intros He Hr Hh Hs Hb Hj Hres sent.
  pose proof (validResponseRegex_2xx _ Hs) as Hv.
  assert (Hk : ∀ k, ServiceNowConnector.processRequestResults JSON_parse
                      (reply_error (request (table_request "POST" s)))
                      (reply_response (request (table_request "POST" s)))
                      (reply_body (request (table_request "POST" s))) k sent
                    = (Throw TypeError, checked sent)).
  { intros k. rewrite Hr.
    apply (processRequestResults_no_array JSON_parse _ r _ _ _ j); try done.
    intros rs ps. rewrite Hres. discriminate. }
  split; [done |].
  unfold ServiceNowAdapter.postRecord, ServiceNowConnector.post,
    ServiceNowConnector.sendRequest, ServiceNowConnector.constructUri.
  run. rewrite record_record. simpl.
  change {| req_method := "POST";
            auth_user := username (this_options s);
            auth_pass := password (this_options s);
            baseUrl := url (this_options s);
            uri := "/api/now/table/" +:+ serviceNowTable (this_options s) |}
    with (table_request "POST" s).
  change (record _ s) with sent.
  by rewrite Hk.
Qed.

End Adapter_properties.

(** ** Instances of the further properties *)

Lemma validResponseRegex_up_to_three_digits_witness :
  validResponseRegex_test (Number_toString (-204)) = in_2xx (Z.abs (-204)).
Proof. apply (validResponseRegex_up_to_three_digits (-204)). lia. Defined.

Lemma project_keys_witness :
  ∃ o, project ticket = Normal o ∧
       keys o = (keys ticket ∖ list_to_set removed_fields)
                ∪ {[ "change_ticket_number"; "change_ticket_key" ]}.
Proof. apply (project_keys ticket). reflexivity. Defined.

Lemma project_twice_erases_ticket_witness :
  ∃ o', project ticket_projected = Normal o' ∧
        own o' "change_ticket_number" = Some VUndefined ∧
        own o' "change_ticket_key" = Some VUndefined ∧
        ∀ k, k ≠ "change_ticket_number" → k ≠ "change_ticket_key" →
             own o' k = own ticket_projected k.
Proof.
  apply (project_twice_erases_ticket ticket ticket_projected).
  vm_compute. reflexivity.
Defined.

Lemma missing_response_not_caught_witness :
  ServiceNowConnector.processRequestResults JSON_parse_text
    VNull None VUndefined host_callback s0
  = (Throw TypeError, record [Evaluated IsHibernating] s0).
Proof. apply (missing_response_not_caught JSON_parse_text). reflexivity. Defined.

Lemma hibernating_page_needs_status_200_witness :
  ServiceNowConnector.isHibernating
    {| statusCode := 204; body := body hibernating_response |} = false ∧
  ServiceNowConnector.processRequestResults JSON_parse_text
    VNull (Some maintenance_response) (VStr (body maintenance_response)) host_callback s0
  = host_callback VNull (Response_value (Some maintenance_response))
      (record [Evaluated IsHibernating; Evaluated StatusCodeTest;
               Log Error "Bad response code."] s0).
Proof.
  split.
  - apply (proj1 (hibernating_page_needs_status_200 JSON_parse_text)).
    simpl. lia.
  - apply (proj2 (hibernating_page_needs_status_200 JSON_parse_text)).
    + reflexivity.
    + simpl. lia.
    + simpl. lia.
Defined.

Lemma healthcheck_transport_error_offline_witness :
  ServiceNowAdapter.healthcheck JSON_parse_text refuse adapter0 (Some host_callback) s0
  = (ServiceNowAdapter.call_if_given (Some host_callback) VNull connection_refused;;
     mret VUndefined)
      (record (Log Error "Error present." :: offline_events adapter0) (requested s0)).
Proof.
  apply (healthcheck_transport_error_offline JSON_parse_text refuse). reflexivity.
Defined.

Lemma healthcheck_bad_reply_offline_witness :
  ServiceNowAdapter.healthcheck JSON_parse_text (answer hibernating_response)
    adapter0 (Some host_callback) s0
  = (ServiceNowAdapter.call_if_given (Some host_callback)
       VNull (VStr "Hibernating instance");;
     mret VUndefined)
      (record ([Evaluated IsHibernating; Log Error "Hibernating instance"]
               ++ offline_events adapter0) (requested s0)) ∧
  ServiceNowAdapter.healthcheck JSON_parse_text (answer maintenance_response)
    adapter0 (Some host_callback) s0
  = (ServiceNowAdapter.call_if_given (Some host_callback)
       VNull (Response_value (Some maintenance_response));;
     mret VUndefined)
      (record ([Evaluated IsHibernating; Evaluated StatusCodeTest;
                Log Error "Bad response code."]
               ++ offline_events adapter0) (requested s0)).
Proof.
  split.
  - apply (proj1 (healthcheck_bad_reply_offline JSON_parse_text
                    (answer hibernating_response) adapter0 (Some host_callback) s0
                    hibernating_response eq_refl eq_refl)).
    reflexivity.
  - apply (proj2 (healthcheck_bad_reply_offline JSON_parse_text
                    (answer maintenance_response) adapter0 (Some host_callback) s0
                    maintenance_response eq_refl eq_refl)).
    + reflexivity.
    + vm_compute. reflexivity.
Defined.

Lemma healthcheck_good_reply_online_witness :
  ServiceNowAdapter.healthcheck JSON_parse_text (answer {| statusCode := 204; body := "" |})
    adapter0 (Some host_callback) s0
  = (ServiceNowAdapter.call_if_given (Some host_callback) VNull VNull;; mret VUndefined)
      (record ([Evaluated IsHibernating; Evaluated StatusCodeTest]
               ++ online_events adapter0) (requested s0)) ∧
  ∃ outs, Forall2 renamed_and_stripped [ticket] outs ∧
    ServiceNowAdapter.healthcheck JSON_parse_text (answer ok_response)
      adapter0 (Some host_callback) s0
    = (ServiceNowAdapter.call_if_given (Some host_callback) (VArr outs ∅) VNull;;
       mret VUndefined)
        (record ([Evaluated IsHibernating; Evaluated StatusCodeTest]
                 ++ online_events adapter0) (requested s0)).
Proof.
  split.
  - apply (proj1 (healthcheck_good_reply_online JSON_parse_text
                    (answer {| statusCode := 204; body := "" |})
                    adapter0 (Some host_callback) s0
                    {| statusCode := 204; body := "" |}
                    eq_refl eq_refl eq_refl ltac:(vm_compute; reflexivity))).
    reflexivity.
  - apply (proj2 (healthcheck_good_reply_online JSON_parse_text
                    (answer ok_response) adapter0 (Some host_callback) s0
                    ok_response
                    eq_refl eq_refl eq_refl ltac:(vm_compute; reflexivity))
             (VObj {[ "result" := VArr [ticket] ∅ ]}) [ticket]).
    + discriminate.
    + exact JSON_parse_ticket_body.
    + vm_compute. reflexivity.
    + repeat constructor.
Defined.

Lemma healthcheck_malformed_body_no_status_witness :
  let r := {| statusCode := 200; body := "<html>Service unavailable</html>" |} in
  (∀ k, ServiceNowConnector.processRequestResults JSON_parse_text
          VNull (Some r) (VStr (body r)) k (requested s0)
        = (Throw SyntaxError, checked (requested s0))) ∧
  snd (ServiceNowAdapter.healthcheck JSON_parse_text (answer r) adapter0
         (Some host_callback) s0)
  = checked (requested s0) ∧
  emitted (events (checked (requested s0))) = emitted (events s0).
Proof.
  apply (healthcheck_malformed_body_no_status JSON_parse_text
           (answer {| statusCode := 200; body := "<html>Service unavailable</html>" |})
           adapter0 (Some host_callback) s0
           {| statusCode := 200; body := "<html>Service unavailable</html>" |}).
  - reflexivity.
  - reflexivity.
  - reflexivity.
  - simpl. lia.
  - discriminate.
  - vm_compute. reflexivity.
Defined.

Lemma postRecord_single_record_not_delivered_witness :
  let r := {| statusCode := 201; body := created_body |} in
  let sent := record [Log Debug ("URI: " +:+ uri (table_request "POST" s0));
                      Request (table_request "POST" s0)] s0 in
  (∀ k, ServiceNowConnector.processRequestResults JSON_parse_text
          VNull (Some r) (VStr (body r)) k sent
        = (Throw TypeError, checked sent)) ∧
  snd (ServiceNowAdapter.postRecord JSON_parse_text (answer r) adapter0 host_callback s0)
  = checked sent.
Proof.
  apply (postRecord_single_record_not_delivered JSON_parse_text
           (answer {| statusCode := 201; body := created_body |})
           adapter0 host_callback s0
           {| statusCode := 201; body := created_body |}
           (VObj {[ "result" := VObj created ]}) created).
  - reflexivity.
  - reflexivity.
  - reflexivity.
  - simpl. lia.
  - discriminate.
  - vm_compute. reflexivity.
  - vm_compute. reflexivity.
Defined.
